(** * server.js: the product catalogue and the sales ledger

    A shallow embedding of the Express handlers of [server.js]
    ([GET /productos], [POST /producto], [PUT /producto],
    [DELETE /producto], [POST /venta]) over the two JSON documents
    [productos.json] and [ventas.json].

    Conventions of the embedding.
    - A JavaScript number is an exact rational, [NaN] or a signed
      infinity: the binary rounding and the overflow of IEEE doubles are
      outside the model, and [-0] is identified with [0] (the handlers never
      tell them apart).
    - A field of a request or of a stored object is a JSON scalar or is
      absent ([VUndef]); nested arrays and objects as field values are
      outside the model.  Strings are sequences of 8-bit characters, and
      white space is the ASCII white space.
    - The text of the error messages is not modelled, only the status code
      and the payload object. *)

From Stdlib Require Import ZArith QArith Qround Qabs Lqa Lia Bool List String Ascii.
From stdpp Require Import base list.
Import ListNotations.

Local Open Scope Z_scope.

(** ** JavaScript values *)

Inductive number : Type :=
| NaN
| Infinity (neg : bool)
| Fin (q : Q).

Inductive value : Type :=
| VUndef
| VNull
| VBool (b : bool)
| VNum (n : number)
| VStr (s : string).

Definition num (z : Z) : value := VNum (Fin (inject_Z z)).

(** *** Arithmetic on numbers *)

Definition Qneg_bool (q : Q) : bool := negb (Qle_bool 0 q).
Definition Qzero_bool (q : Q) : bool := Qeq_bool q 0.

Definition num_add (a b : number) : number :=
  match a, b with
  | NaN, _ | _, NaN => NaN
  | Infinity s, Infinity t => if Bool.eqb s t then Infinity s else NaN
  | Infinity s, Fin _ | Fin _, Infinity s => Infinity s
  | Fin p, Fin q => Fin (Qred (p + q))
  end.

Definition num_sub (a b : number) : number :=
  match a, b with
  | NaN, _ | _, NaN => NaN
  | Infinity s, Infinity t => if Bool.eqb s t then NaN else Infinity s
  | Infinity s, Fin _ => Infinity s
  | Fin _, Infinity s => Infinity (negb s)
  | Fin p, Fin q => Fin (Qred (p - q))
  end.

Definition num_mul (a b : number) : number :=
  match a, b with
  | NaN, _ | _, NaN => NaN
  | Infinity s, Infinity t => Infinity (xorb s t)
  | Infinity s, Fin q | Fin q, Infinity s =>
      if Qzero_bool q then NaN else Infinity (xorb s (Qneg_bool q))
  | Fin p, Fin q => Fin (Qred (p * q))
  end.

(** [a < b] and [a <= b] on numbers; both are false when an operand is
    [NaN]. *)
Definition num_ltb (a b : number) : bool :=
  match a, b with
  | NaN, _ | _, NaN => false
  | Infinity s, Infinity t => s && negb t
  | Infinity s, Fin _ => s
  | Fin _, Infinity t => negb t
  | Fin p, Fin q => negb (Qle_bool q p)
  end.

Definition num_leb (a b : number) : bool :=
  match a, b with
  | NaN, _ | _, NaN => false
  | Infinity s, Infinity t => s || negb t
  | Infinity s, Fin _ => s
  | Fin _, Infinity t => negb t
  | Fin p, Fin q => Qle_bool p q
  end.

Definition num_eqb (a b : number) : bool :=
  match a, b with
  | Infinity s, Infinity t => Bool.eqb s t
  | Fin p, Fin q => Qeq_bool p q
  | _, _ => false
  end.

(** [Math.max] of two numbers. *)
Definition num_max (a b : number) : number :=
  match a, b with
  | NaN, _ | _, NaN => NaN
  | _, _ => if num_ltb a b then b else a
  end.

(** *** Strings and the numeric literals they spell *)

Definition is_ws (c : ascii) : bool :=
  let n := N_of_ascii c in
  (N.leb 9 n && N.leb n 13) || N.eqb n 32.

Definition is_digit (c : ascii) : bool :=
  let n := N_of_ascii c in N.leb 48 n && N.leb n 57.

Definition digit_val (c : ascii) : Z := Z.of_N (N_of_ascii c) - 48.

Fixpoint skip_ws (l : list ascii) : list ascii :=
  match l with
  | c :: r => if is_ws c then skip_ws r else l
  | [] => []
  end.

(** [String.prototype.trim]. *)
Definition trim (s : string) : string :=
  string_of_list_ascii
    (rev (skip_ws (rev (skip_ws (list_ascii_of_string s))))).

(** The longest run of decimal digits at the head of [l], and what
    follows it. *)
Fixpoint take_digits (l : list ascii) : list ascii * list ascii :=
  match l with
  | c :: r =>
      if is_digit c then let (ds, r') := take_digits r in (c :: ds, r')
      else ([], l)
  | [] => ([], [])
  end.

Definition digits_val (ds : list ascii) : Z :=
  fold_left (fun acc c => 10 * acc + digit_val c) ds 0.

Definition take_sign (l : list ascii) : bool * list ascii :=
  match l with
  | "-"%char :: r => (true, r)
  | "+"%char :: r => (false, r)
  | _ => (false, l)
  end.

Fixpoint strip_prefix (p l : list ascii) : option (list ascii) :=
  match p, l with
  | [], _ => Some l
  | a :: p', b :: l' => if Ascii.eqb a b then strip_prefix p' l' else None
  | _ :: _, [] => None
  end.

Definition signed (neg : bool) (q : Q) : Q := if neg then Qopp q else q.

(** The exponent part [e], [E] followed by an optionally signed run of
    digits; when the part is malformed there is no exponent and nothing is
    consumed. *)
Definition take_exponent (l : list ascii) : Z * list ascii :=
  match l with
  | c :: r =>
      if Ascii.eqb c "e" || Ascii.eqb c "E" then
        let (neg, r1) := take_sign r in
        let (ds, r2) := take_digits r1 in
        match ds with
        | [] => (0, l)
        | _ => ((if neg then - digits_val ds else digits_val ds), r2)
        end
      else (0, l)
  | [] => (0, l)
  end.

(** The longest prefix of [l] that is a [StrDecimalLiteral], with its
    value and the rest of [l]; [None] when no prefix is one. *)
Definition StrDecimalLiteral (l : list ascii) : option (number * list ascii) :=
  let (neg, l1) := take_sign l in
  match strip_prefix (list_ascii_of_string "Infinity") l1 with
  | Some r => Some (Infinity neg, r)
  | None =>
      let (ip, l2) := take_digits l1 in
      let (fp, l3) :=
        match l2 with
        | "."%char :: r => take_digits r
        | _ => ([], l2)
        end in
      match ip, fp with
      | [], [] => None
      | _, _ =>
          let (e, l4) := take_exponent l3 in
          let m := (inject_Z (digits_val ip)
                    + inject_Z (digits_val fp)
                      / inject_Z (10 ^ Z.of_nat (length fp)))%Q in
          Some (Fin (Qred (signed neg (m * Qpower (10 # 1) e))), l4)
      end
  end.

(** [parseFloat] of a string. *)
Definition parseFloat_string (s : string) : number :=
  match StrDecimalLiteral (skip_ws (list_ascii_of_string s)) with
  | Some (n, _) => n
  | None => NaN
  end.

(** [parseInt(s, 10)] of a string. *)
Definition parseInt_string (s : string) : number :=
  let (neg, l) := take_sign (skip_ws (list_ascii_of_string s)) in
  match fst (take_digits l) with
  | [] => NaN
  | ds => Fin (Qred (signed neg (inject_Z (digits_val ds))))
  end.

(** The digits of the literals [0x..], [0o..] and [0b..]. *)
Definition radix_digit (radix : Z) (c : ascii) : option Z :=
  let n := Z.of_N (N_of_ascii c) in
  let d := if (48 <=? n) && (n <=? 57) then n - 48
           else if (97 <=? n) && (n <=? 102) then n - 87
           else if (65 <=? n) && (n <=? 70) then n - 55
           else radix in
  if d <? radix then Some d else None.

Fixpoint radix_val (radix : Z) (acc : Z) (l : list ascii) : option Z :=
  match l with
  | [] => Some acc
  | c :: r =>
      match radix_digit radix c with
      | Some d => radix_val radix (radix * acc + d) r
      | None => None
      end
  end.

Definition NonDecimalIntegerLiteral (l : list ascii) : option (option Z) :=
  match l with
  | "0"%char :: c :: d :: r =>
      let lit radix := Some (radix_val radix 0 (d :: r)) in
      if Ascii.eqb c "x" || Ascii.eqb c "X" then lit 16
      else if Ascii.eqb c "o" || Ascii.eqb c "O" then lit 8
      else if Ascii.eqb c "b" || Ascii.eqb c "B" then lit 2
      else None
  | _ => None
  end.

(** [ToNumber] of a string: the whole trimmed string has to be a numeric
    literal, and the empty string is [0]. *)
Definition StringToNumber (s : string) : number :=
  match list_ascii_of_string (trim s) with
  | [] => Fin 0
  | l =>
      match NonDecimalIntegerLiteral l with
      | Some (Some z) => Fin (inject_Z z)
      | Some None => NaN
      | None =>
          match StrDecimalLiteral l with
          | Some (n, []) => n
          | _ => NaN
          end
      end
  end.

(** *** Coercions *)

(** [ToBoolean]: what [!v], [if (v)] and [Boolean(v)] look at. *)
Definition truthy (v : value) : bool :=
  match v with
  | VUndef | VNull => false
  | VBool b => b
  | VNum NaN => false
  | VNum (Infinity _) => true
  | VNum (Fin q) => negb (Qzero_bool q)
  | VStr s => negb (String.eqb s "")
  end.

Definition ToNumber (v : value) : number :=
  match v with
  | VUndef => NaN
  | VNull => Fin 0
  | VBool b => if b then Fin 1 else Fin 0
  | VNum n => n
  | VStr s => StringToNumber s
  end.

(** [a === b]. *)
Definition strict_eq (a b : value) : bool :=
  match a, b with
  | VUndef, VUndef | VNull, VNull => true
  | VBool x, VBool y => Bool.eqb x y
  | VNum x, VNum y => num_eqb x y
  | VStr x, VStr y => String.eqb x y
  | _, _ => false
  end.

(** [a < b]: two strings are compared as strings, anything else as
    numbers. *)
Definition js_lt (a b : value) : bool :=
  match a, b with
  | VStr x, VStr y => String.ltb x y
  | _, _ => num_ltb (ToNumber a) (ToNumber b)
  end.

(** [a <= b]. *)
Definition js_le (a b : value) : bool :=
  match a, b with
  | VStr x, VStr y => negb (String.ltb y x)
  | _, _ => num_leb (ToNumber a) (ToNumber b)
  end.

Definition js_mul (a b : value) : number := num_mul (ToNumber a) (ToNumber b).
Definition js_sub (a b : value) : number := num_sub (ToNumber a) (ToNumber b).

(** [typeof v === 'number']. *)
Definition typeof_number (v : value) : bool :=
  match v with VNum _ => true | _ => false end.

(** [Number.isInteger(v)]. *)
Definition Number_isInteger (v : value) : bool :=
  match v with
  | VNum (Fin q) => Qeq_bool (inject_Z (Qfloor q)) q
  | _ => false
  end.

(** [parseFloat(x.toFixed(2))]: the decimal notation of [x] with two
    digits after the point, the nearest one and on a tie the one farther
    from zero, read back as a number. *)
Definition round_half_up (q : Q) : Z := Qfloor (q + (1 # 2)).

Definition toFixed2 (x : number) : number :=
  match x with
  | Fin q =>
      let n := if Qneg_bool q then - round_half_up (- q * 100)
               else round_half_up (q * 100) in
      Fin (Qred (inject_Z n / 100))
  | _ => x
  end.

(** The first significant decimal digit of a positive rational: what
    [parseInt] reads of a number that [ToString] writes in exponent
    notation. *)
Fixpoint leading_digit (fuel : nat) (q : Q) : Z :=
  match fuel with
  | O => Qfloor q
  | S f =>
      if Qle_bool 10 q then leading_digit f (q / 10)
      else if Qle_bool 1 q then Qfloor q
      else leading_digit f (q * 10)
  end.

Definition magnitude_fuel (q : Q) : nat :=
  S (Z.to_nat (Z.log2 (Z.abs (Qnum q)) + Z.log2 (Zpos (Qden q)))).

(** [parseInt(x, 10)] of a number [x], which reads [ToString(x)]: the
    integer part in the decimal notation used for [1e-6 <= |x| < 1e21],
    the first digit in the exponent notation used elsewhere. *)
Definition parseInt_number (x : number) : number :=
  match x with
  | Fin q =>
      let a := Qabs q in
      let z := if Qzero_bool q then 0
               else if Qle_bool (1 # 1000000) a
                       && negb (Qle_bool (inject_Z (10 ^ 21)) a)
                    then Qfloor a
                    else leading_digit (magnitude_fuel a) a in
      Fin (inject_Z (if Qneg_bool q then - z else z))
  | _ => NaN
  end.

(** [parseInt(v, 10)]. *)
Definition parseInt (v : value) : number :=
  match v with
  | VNum n => parseInt_number n
  | VStr s => parseInt_string s
  | _ => NaN
  end.

(** [parseFloat(v)]. *)
Definition parseFloat (v : value) : number :=
  match v with
  | VNum n => n
  | VStr s => parseFloat_string s
  | _ => NaN
  end.

(** [JSON.stringify] followed by [JSON.parse] on a field: [NaN] and the
    infinities are written as [null]. *)
Definition json_value (v : value) : value :=
  match v with
  | VNum NaN | VNum (Infinity _) => VNull
  | _ => v
  end.

(** ** The documents and the requests *)

(** An element of [productos.json]. *)
Record producto : Type := {
  id_producto : value;
  nombre : value;
  precio : value;
  activo : value;
  stock : value
}.

(** An element of [itemsDetalle], a line of a sale. *)
Record detalle : Type := {
  linea_id_producto : value;
  linea_nombre : value;
  cantidad : value;
  precio_unitario : value;
  subtotal : value
}.

(** An element of [ventas.json]. *)
Record venta : Type := {
  id_venta : string;
  id_usuario : value;
  fecha : string;
  items : list detalle;
  total : value
}.

Definition set_nombre (v : value) (p : producto) : producto :=
  {| id_producto := id_producto p; nombre := v; precio := precio p;
     activo := activo p; stock := stock p |}.
Definition set_precio (v : value) (p : producto) : producto :=
  {| id_producto := id_producto p; nombre := nombre p; precio := v;
     activo := activo p; stock := stock p |}.
Definition set_activo (v : value) (p : producto) : producto :=
  {| id_producto := id_producto p; nombre := nombre p; precio := precio p;
     activo := v; stock := stock p |}.
Definition set_stock (v : value) (p : producto) : producto :=
  {| id_producto := id_producto p; nombre := nombre p; precio := precio p;
     activo := activo p; stock := v |}.

(** What [JSON.stringify] keeps of an object. *)
Definition json_producto (p : producto) : producto :=
  {| id_producto := json_value (id_producto p);
     nombre := json_value (nombre p);
     precio := json_value (precio p);
     activo := json_value (activo p);
     stock := json_value (stock p) |}.

Definition json_detalle (d : detalle) : detalle :=
  {| linea_id_producto := json_value (linea_id_producto d);
     linea_nombre := json_value (linea_nombre d);
     cantidad := json_value (cantidad d);
     precio_unitario := json_value (precio_unitario d);
     subtotal := json_value (subtotal d) |}.

Definition json_venta (v : venta) : venta :=
  {| id_venta := id_venta v;
     id_usuario := json_value (id_usuario v);
     fecha := fecha v;
     items := map json_detalle (items v);
     total := json_value (total v) |}.

(** The body of [POST /producto]. *)
Record body_post_producto : Type := {
  post_nombre : value;
  post_precio : value;
  post_stock : value
}.

(** The body of [PUT /producto]. *)
Record body_put_producto : Type := {
  put_id_producto : value;
  put_nombre : value;
  put_precio : value;
  put_stock : value;
  put_activo : value
}.

(** An element of [items] in the body of [POST /venta]: [null], or an
    object read through its fields [id_producto] and [cantidad] (a number,
    a string or a boolean in that place reads as an object without
    fields). *)
Inductive item : Type :=
| ItemNull
| Item (item_id_producto item_cantidad : value).

(** The body of [POST /venta]; [venta_items] is [None] when [items] is not
    an array. *)
Record body_post_venta : Type := {
  venta_items : option (list item);
  venta_id_usuario : value
}.

(** ** The file system and the responses *)

Inductive archivo : Type := DB_PRODUCTOS | DB_VENTAS.

(** The two documents, [None] for a file that cannot be read or parsed,
    and the log of the files written so far. *)
Record fs : Type := {
  productos_json : option (list producto);
  ventas_json : option (list venta);
  escrituras : list archivo
}.

Inductive cuerpo : Type :=
| Error
| Activos (l : list producto)
| ProductoCreado (p : producto)
| ProductoActualizado (p : option producto)
| ProductoEliminado
| VentaRegistrada (v : venta).

Record response : Type := { status : Z; json : cuerpo }.

(** ** Handlers as computations

    A statement of a handler goes on to the next one, answers the request
    and leaves the handler ([return res.status(..).json(..)]), or throws. *)
Inductive outcome (A : Type) : Type :=
| Next (a : A)
| Return (r : response)
| Throw.
Arguments Next {A} a.
Arguments Return {A} r.
Arguments Throw {A}.

Definition M (A : Type) : Type := fs -> outcome A * fs.

Definition ret {A} (a : A) : M A := fun s => (Next a, s).

Definition bind {A B} (m : M A) (k : A -> M B) : M B :=
  fun s =>
    match m s with
    | (Next a, s') => k a s'
    | (Return r, s') => (Return r, s')
    | (Throw, s') => (Throw, s')
    end.

Notation "x <- m ;; k" := (bind m (fun x => k))
  (at level 100, m at next level, right associativity).
Notation "m ;; k" := (bind m (fun _ => k))
  (at level 100, right associativity).

Definition responder {A} (code : Z) (c : cuerpo) : M A :=
  fun s => (Return {| status := code; json := c |}, s).

Definition throw {A} : M A := fun s => (Throw, s).

(** [if (c) return ...;] *)
Definition cuando (c : bool) (m : M unit) : M unit :=
  if c then m else ret tt.

(** [leerJSON]. *)
Definition leerJSON_productos : M (list producto) :=
  fun s =>
    match productos_json s with
    | Some l => (Next l, s)
    | None => (Throw, s)
    end.

Definition leerJSON_ventas : M (list venta) :=
  fun s =>
    match ventas_json s with
    | Some l => (Next l, s)
    | None => (Throw, s)
    end.

(** [escribirJSON]. *)
Definition escribirJSON_productos (data : list producto) : M unit :=
  fun s =>
    (Next tt,
     {| productos_json := Some (map json_producto data);
        ventas_json := ventas_json s;
        escrituras := escrituras s ++ [DB_PRODUCTOS] |}).

Definition escribirJSON_ventas (data : list venta) : M unit :=
  fun s =>
    (Next tt,
     {| productos_json := productos_json s;
        ventas_json := Some (map json_venta data);
        escrituras := escrituras s ++ [DB_VENTAS] |}).

(** [try { ... } catch (err) { res.status(500).json(..) }] *)
Definition try_catch (m : M response) (s : fs) : response * fs :=
  match m s with
  | (Next r, s') | (Return r, s') => (r, s')
  | (Throw, s') => ({| status := 500; json := Error |}, s')
  end.

(** [Array.prototype.findIndex], [None] for [-1]. *)
Fixpoint findIndex {A} (f : A -> bool) (l : list A) : option nat :=
  match l with
  | [] => None
  | x :: r => if f x then Some O else option_map S (findIndex f r)
  end.

(** [Math.max(...l)]. *)
Definition Math_max (l : list number) : number :=
  fold_left num_max l (Infinity true).

Definition is_undefined (v : value) : bool :=
  match v with VUndef => true | _ => false end.

(** [v.trim()], which throws when [v] is not a string. *)
Definition String_trim (v : value) : M string :=
  match v with
  | VStr s => ret (trim s)
  | _ => throw
  end.

(** ** The routes *)

(** [GET /productos] *)
Definition get_productos : M response :=
  productos <- leerJSON_productos ;;
  let activos := List.filter (fun p => truthy (activo p)) productos in
  responder 200 (Activos activos).

(** [POST /producto]: the sequential id of the new product. *)
Definition nuevoId (productos : list producto) : number :=
  if (0 <? length productos)%nat
  then num_add (Math_max (map (fun p => ToNumber (id_producto p)) productos))
               (Fin 1)
  else Fin 1.

(** [POST /producto] *)
Definition post_producto (body : body_post_producto) : M response :=
  let nombre := post_nombre body in
  let precio := post_precio body in
  let stock := post_stock body in
  cuando (negb (truthy nombre) || is_undefined precio || is_undefined stock)
    (responder 400 Error) ;;
  cuando (negb (typeof_number precio) || js_lt precio (num 0))
    (responder 400 Error) ;;
  cuando (negb (Number_isInteger stock) || js_lt stock (num 0))
    (responder 400 Error) ;;
  productos <- leerJSON_productos ;;
  let nuevoId := nuevoId productos in
  nombre_trim <- String_trim nombre ;;
  let nuevoProducto :=
    {| id_producto := VNum nuevoId;
       nombre := VStr nombre_trim;
       precio := VNum (toFixed2 (ToNumber precio));
       activo := VBool true;
       stock := stock |} in
  let productos := productos ++ [nuevoProducto] in
  escribirJSON_productos productos ;;
  responder 201 (ProductoCreado nuevoProducto).

(** [PUT /producto] *)
Definition put_producto (body : body_put_producto) : M response :=
  let id_producto' := put_id_producto body in
  let nombre := put_nombre body in
  let precio := put_precio body in
  let stock := put_stock body in
  let activo := put_activo body in
  cuando (negb (truthy id_producto')) (responder 400 Error) ;;
  productos <- leerJSON_productos ;;
  match findIndex (fun p => strict_eq (id_producto p) id_producto') productos with
  | None => responder 404 Error
  | Some idx =>
      productos <-
        (if negb (is_undefined nombre)
         then nombre_trim <- String_trim nombre ;;
              ret (alter (set_nombre (VStr nombre_trim)) idx productos)
         else ret productos) ;;
      let productos :=
        if negb (is_undefined precio)
        then alter (set_precio (VNum (toFixed2 (parseFloat precio)))) idx productos
        else productos in
      let productos :=
        if negb (is_undefined stock)
        then alter (set_stock (VNum (parseInt stock))) idx productos
        else productos in
      let productos :=
        if negb (is_undefined activo)
        then alter (set_activo (VBool (truthy activo))) idx productos
        else productos in
      escribirJSON_productos productos ;;
      responder 200 (ProductoActualizado (productos !! idx))
  end.

(** [DELETE /producto] *)
Definition delete_producto (id_producto' : value) : M response :=
  cuando (negb (truthy id_producto')) (responder 400 Error) ;;
  productos <- leerJSON_productos ;;
  match findIndex (fun p => strict_eq (id_producto p) id_producto') productos with
  | None => responder 404 Error
  | Some idx =>
      let productos := alter (set_activo (VBool false)) idx productos in
      escribirJSON_productos productos ;;
      responder 200 ProductoEliminado
  end.

(** [GET /ventas]: the answer carries the sales, or the error of the
    [catch]. *)
Inductive cuerpo_ventas : Type :=
| ErrorVentas
| Ventas (l : list venta).

Definition get_ventas (s : fs) : (Z * cuerpo_ventas) * fs :=
  match leerJSON_ventas s with
  | (Next ventas, s') => ((200, Ventas ventas), s')
  | (_, s') => ((500, ErrorVentas), s')
  end.

(** [POST /venta], step 1: the loop that validates the payload. *)
Fixpoint validar_items (items : list item) : M unit :=
  match items with
  | [] => ret tt
  | ItemNull :: _ => throw
  | Item id cant :: rest =>
      cuando (negb (truthy id) || negb (truthy cant) || js_le cant (num 0))
        (responder 400 Error) ;;
      validar_items rest
  end.

(** Step 2: the loop that looks every item up in the products read at
    its start and checks the stock; [itemsDetalle] grows by one line per
    item. *)
Fixpoint verificar_stock (productos : list producto) (items : list item)
    (itemsDetalle : list detalle) : M (list detalle) :=
  match items with
  | [] => ret itemsDetalle
  | ItemNull :: _ => throw
  | Item id cant :: rest =>
      match List.find (fun p => strict_eq (id_producto p) id && truthy (activo p))
                      productos with
      | None => responder 404 Error
      | Some producto =>
          cuando (js_lt (stock producto) cant) (responder 409 Error) ;;
          verificar_stock productos rest
            (itemsDetalle ++
             [{| linea_id_producto := id_producto producto;
                 linea_nombre := nombre producto;
                 cantidad := cant;
                 precio_unitario := precio producto;
                 subtotal := VNum (toFixed2 (js_mul (precio producto) cant)) |}])
      end
  end.

(** Step 3: [itemsDetalle.reduce((acc, i) => acc + i.subtotal, 0)]; every
    [subtotal] was built as a number by step 2. *)
Definition suma_subtotales (itemsDetalle : list detalle) : number :=
  fold_left (fun acc i => num_add acc (ToNumber (subtotal i))) itemsDetalle (Fin 0).

(** Step 4: the loop that takes the quantities off the stock, in
    memory. *)
Fixpoint descontar_stock (productos : list producto) (itemsDetalle : list detalle)
    : M (list producto) :=
  match itemsDetalle with
  | [] => ret productos
  | linea :: rest =>
      match findIndex (fun p => strict_eq (id_producto p) (linea_id_producto linea))
                      productos with
      | None => throw
      | Some idx =>
          descontar_stock
            (alter (fun p => set_stock (VNum (js_sub (stock p) (cantidad linea))) p)
                   idx productos)
            rest
      end
  end.

(** [POST /venta]; [uuid] is what [uuidv4()] returns and [ahora] what
    [new Date().toISOString()] returns for this request. *)
Definition post_venta (uuid ahora : string) (body : body_post_venta) : M response :=
  let id_usuario' :=
    if is_undefined (venta_id_usuario body) then VNull else venta_id_usuario body in
  match venta_items body with
  | None | Some [] => responder 400 Error
  | Some items' =>
      validar_items items' ;;
      productos <- leerJSON_productos ;;
      itemsDetalle <- verificar_stock productos items' [] ;;
      let total' := toFixed2 (suma_subtotales itemsDetalle) in
      productos <- descontar_stock productos itemsDetalle ;;
      escribirJSON_productos productos ;;
      ventas <- leerJSON_ventas ;;
      let nuevaVenta :=
        {| id_venta := uuid;
           id_usuario := id_usuario';
           fecha := ahora;
           items := itemsDetalle;
           total := VNum total' |} in
      escribirJSON_ventas (ventas ++ [nuevaVenta]) ;;
      responder 201 (VentaRegistrada nuevaVenta)
  end.

(** The operations of the service: a request on a state of the files gives
    a response and the next state. *)
Definition list_active_products : fs -> response * fs :=
  try_catch get_productos.
Definition create_product (body : body_post_producto) : fs -> response * fs :=
  try_catch (post_producto body).
Definition update_product (body : body_put_producto) : fs -> response * fs :=
  try_catch (put_producto body).
Definition deactivate_product (id : value) : fs -> response * fs :=
  try_catch (delete_producto id).
Definition record_sale (uuid ahora : string) (body : body_post_venta)
    : fs -> response * fs :=
  try_catch (post_venta uuid ahora body).

(** ** What the claims speak of *)

(** The entry is [null], or it misses [id_producto], or its [cantidad] is
    missing, zero or not above zero: the test of step 1. *)
Definition falla_validacion (it : item) : bool :=
  match it with
  | ItemNull => true
  | Item id cant => negb (truthy id) || negb (truthy cant) || js_le cant (num 0)
  end.

(** The active product that an [id_producto] of the cart resolves to. *)
Definition buscar (productos : list producto) (id : value) : option producto :=
  List.find (fun p => strict_eq (id_producto p) id && truthy (activo p)) productos.

(** No active product has the id of the entry. *)
Definition falla_busqueda (productos : list producto) (it : item) : bool :=
  match it with
  | ItemNull => false
  | Item id _ => match buscar productos id with None => true | Some _ => false end
  end.

(** The product of the entry has less stock than the entry asks for. *)
Definition falla_stock (productos : list producto) (it : item) : bool :=
  match it with
  | ItemNull => false
  | Item id cant =>
      match buscar productos id with
      | Some p => js_lt (stock p) cant
      | None => false
      end
  end.

Definition es_objeto (it : item) : bool :=
  match it with ItemNull => false | Item _ _ => true end.

(** The line that step 2 writes for an entry. *)
Definition linea_de (productos : list producto) (it : item) : option detalle :=
  match it with
  | ItemNull => None
  | Item id cant =>
      match buscar productos id with
      | None => None
      | Some p =>
          Some {| linea_id_producto := id_producto p;
                  linea_nombre := nombre p;
                  cantidad := cant;
                  precio_unitario := precio p;
                  subtotal := VNum (toFixed2 (js_mul (precio p) cant)) |}
      end
  end.

Definition error (code : Z) : response := {| status := code; json := Error |}.

(** The state after [escribirJSON(DB_PRODUCTOS, productos)]. *)
Definition tras_escribir_productos (productos : list producto) (s : fs) : fs :=
  {| productos_json := Some (map json_producto productos);
     ventas_json := ventas_json s;
     escrituras := escrituras s ++ [DB_PRODUCTOS] |}.

(** The state after [escribirJSON(DB_VENTAS, ventas)]. *)
Definition tras_escribir_ventas (ventas : list venta) (s : fs) : fs :=
  {| productos_json := productos_json s;
     ventas_json := Some (map json_venta ventas);
     escrituras := escrituras s ++ [DB_VENTAS] |}.

Definition nueva_venta (uuid ahora : string) (body : body_post_venta)
    (itemsDetalle : list detalle) : venta :=
  {| id_venta := uuid;
     id_usuario := if is_undefined (venta_id_usuario body) then VNull
                   else venta_id_usuario body;
     fecha := ahora;
     items := itemsDetalle;
     total := VNum (toFixed2 (suma_subtotales itemsDetalle)) |}.

(** What a step that does not go on makes of the request. *)
Definition salida {A} (o : outcome A) : response :=
  match o with
  | Return r => r
  | _ => error 500
  end.

(** A shop to run the handlers on: a product on sale with two units in
    stock, and a product that was deactivated. *)
Definition widget : producto :=
  {| id_producto := num 1; nombre := VStr "Widget"; precio := num 10;
     activo := VBool true; stock := num 2 |}.

Definition gadget : producto :=
  {| id_producto := num 2; nombre := VStr "Gadget"; precio := VNum (Fin 4.5);
     activo := VBool false; stock := num 7 |}.

Definition tienda : fs :=
  {| productos_json := Some [widget; gadget];
     ventas_json := Some [];
     escrituras := [] |}.

Definition carrito (l : list item) : body_post_venta :=
  {| venta_items := Some l; venta_id_usuario := VUndef |}.




(** The three tests of [POST /producto]. *)
Definition producto_invalido (body : body_post_producto) : bool :=
  (negb (truthy (post_nombre body)) || is_undefined (post_precio body)
   || is_undefined (post_stock body))
  || (negb (typeof_number (post_precio body)) || js_lt (post_precio body) (num 0))
  || (negb (Number_isInteger (post_stock body)) || js_lt (post_stock body) (num 0)).

Definition nuevo_producto (productos : list producto) (body : body_post_producto)
    (nombre_trim : string) : producto :=
  {| id_producto := VNum (nuevoId productos);
     nombre := VStr nombre_trim;
     precio := VNum (toFixed2 (ToNumber (post_precio body)));
     activo := VBool true;
     stock := post_stock body |}.

(** The product at [idx] after the four assignments of [PUT /producto]. *)
Definition campos_recibidos (body : body_put_producto) (p : producto) : producto :=
  let p := match put_nombre body with
           | VStr n => set_nombre (VStr (trim n)) p
           | _ => p
           end in
  let p := if is_undefined (put_precio body) then p
           else set_precio (VNum (toFixed2 (parseFloat (put_precio body)))) p in
  let p := if is_undefined (put_stock body) then p
           else set_stock (VNum (parseInt (put_stock body))) p in
  if is_undefined (put_activo body) then p
  else set_activo (VBool (truthy (put_activo body))) p.

(** [nombre] is absent or it is a string: [nombre.trim()] does not
    throw. *)
Definition nombre_admitido (v : value) : bool :=
  match v with
  | VUndef | VStr _ => true
  | _ => false
  end.





(** A number that is zero or more. *)
Definition numero_no_negativo (v : value) : Prop :=
  exists q, v = VNum (Fin q) /\ (0 <= q)%Q.






(** The line of the product [p] for the quantity [q]. *)
Definition linea_repetida (p : producto) (q : Q) : detalle :=
  {| linea_id_producto := id_producto p;
     linea_nombre := nombre p;
     cantidad := VNum (Fin q);
     precio_unitario := precio p;
     subtotal := VNum (toFixed2 (js_mul (precio p) (VNum (Fin q)))) |}.

(** The stock of the product is a number that is zero or more. *)
Definition stock_no_negativo (p : producto) : Prop :=
  exists q, stock p = VNum (Fin q) /\ (0 <= q)%Q.

(** The invariant [stock >= 0] on the products document. *)
Definition stocks_no_negativos (s : fs) : Prop :=
  forall productos,
    productos_json s = Some productos -> Forall stock_no_negativo productos.

(** The shop before the first product. *)
Definition tienda_vacia : fs :=
  {| productos_json := Some []; ventas_json := Some []; escrituras := [] |}.

(** ** What the further properties speak of *)

(** [list-sales] of the service. *)
Definition list_sales : fs -> (Z * cuerpo_ventas) * fs := get_ventas.

(** No two values of the list are [===]. *)
Fixpoint distintos (ids : list value) : bool :=
  match ids with
  | [] => true
  | x :: r => forallb (fun y => negb (strict_eq x y)) r && distintos r
  end.


(** The id that an entry of the cart carries. *)
Definition id_de_item (it : item) : value :=
  match it with
  | ItemNull => VUndef
  | Item id _ => id
  end.

(** The entry is an object whose [cantidad] is a number. *)
Definition cantidad_numerica (it : item) : bool :=
  match it with
  | Item _ (VNum (Fin _)) => true
  | _ => false
  end.

(** What step 2 has checked of a line, seen from step 4: the line names a
    product of the list, by its id, and asks for a number that is not
    above the stock of that product. *)
Definition linea_cubierta (ps : list producto) (d : detalle) : Prop :=
  exists j p c st,
    ps !! j = Some p
    /\ linea_id_producto d = id_producto p
    /\ stock p = VNum (Fin st)
    /\ cantidad d = VNum (Fin c)
    /\ (c <= st)%Q.

(** * Properties *)

(** ** The scenarios of the specification *)

(** A product created with the price 9.999 is stored with the price 10; a
    sale of 3 units has the subtotal 30 and leaves 2 of the 5 units. *)
Example escenario_widget :
  let s1 := snd (create_product
                   {| post_nombre := VStr "Widget";
                      post_precio := VNum (Fin 9.999);
                      post_stock := num 5 |} tienda_vacia) in
  let venta1 := record_sale "u" "t" (carrito [Item (num 1) (num 3)]) s1 in
  productos_json s1
  = Some [{| id_producto := num 1; nombre := VStr "Widget"; precio := num 10;
             activo := VBool true; stock := num 5 |}]
  /\ status (fst venta1) = 201
  /\ ventas_json (snd venta1)
     = Some [{| id_venta := "u"; id_usuario := VNull; fecha := "t";
                items := [{| linea_id_producto := num 1;
                             linea_nombre := VStr "Widget";
                             cantidad := num 3;
                             precio_unitario := num 10;
                             subtotal := num 30 |}];
                total := num 30 |}]
  /\ productos_json (snd venta1)
     = Some [{| id_producto := num 1; nombre := VStr "Widget"; precio := num 10;
                activo := VBool true; stock := num 2 |}].
Proof. repeat split. Qed.

(** With 2 units in stock, a sale of 3 units is answered with 409: the
    stock stays at 2 and no sale is recorded. *)
Example escenario_stock_insuficiente :
  record_sale "u" "t" (carrito [Item (num 1) (num 3)]) tienda
  = (error 409, tienda).
Proof. reflexivity. Qed.

(** ** The loops of [POST /venta] *)

(** One turn of a loop: the test of [if (c) return ...], in both
    cases. *)
Ltac caso_cuando :=
  unfold bind, cuando;
  match goal with
  | |- context [if ?c then _ else _] => destruct c eqn:?; simpl
  end.

Section Loops.

Variable s : fs.

Lemma validar_items_estado (l : list item) : snd (validar_items l s) = s.
Proof.
  induction l as [|[|id cant] l IH]; simpl; auto.
  caso_cuando; auto.
Qed.

(** The loop of step 1 goes through exactly when no entry fails. *)
Lemma validar_items_next (l : list item) :
  fst (validar_items l s) = Next tt <-> existsb falla_validacion l = false.
Proof.
  induction l as [|[|id cant] l IH]; simpl.
  - tauto.
  - split; discriminate.
  - caso_cuando.
    + split; discriminate.
    + exact IH.
Qed.


Lemma validar_items_return (l : list item) (r : response) :
  fst (validar_items l s) = Return r -> r = error 400.
Proof.
  induction l as [|[|id cant] l IH]; simpl; try discriminate.
  caso_cuando.
  - intros [= <-]. reflexivity.
  - exact IH.
Qed.

Variable productos : list producto.

Lemma verificar_stock_estado (l : list item) (acc : list detalle) :
  snd (verificar_stock productos l acc s) = s.
Proof.
  revert acc. induction l as [|[|id cant] l IH]; intros acc; simpl; auto.
  destruct (List.find _ productos) as [p|]; simpl; auto.
  caso_cuando; auto.
Qed.

(** The loop of step 2 goes through exactly when every entry resolves
    to an active product with enough stock, and then it has written the
    lines of the entries in their order. *)
Lemma verificar_stock_next (l : list item) (acc out : list detalle) :
  fst (verificar_stock productos l acc s) = Next out <->
  existsb (fun it => negb (es_objeto it) || falla_busqueda productos it
                     || falla_stock productos it) l = false
  /\ Some out = option_map (app acc) (mapM (linea_de productos) l).
Proof.
  revert acc. induction l as [|[|id cant] l IH]; intros acc; simpl.
  - rewrite app_nil_r. split; [intros [= ->]; auto | intros [_ [= ->]]; auto].
  - split; [discriminate | intros [[=] _]].
  - unfold buscar at 1 2 3. fold (buscar productos id).
    change (List.find _ productos) with (buscar productos id).
    destruct (buscar productos id) as [p|] eqn:Hb; simpl.
    + unfold bind, cuando. destruct (js_lt (stock p) cant) eqn:Hlt; simpl.
      * split; [discriminate | intros [[=] _]].
      * rewrite IH. unfold mbind, option_bind, mret, option_ret.
        destruct (mapM (linea_de productos) l) as [ls|]; simpl;
          rewrite <- ?app_assoc; simpl; tauto.
    + split; [discriminate | intros [[=] _]].
Qed.

Lemma verificar_stock_return (l : list item) (acc : list detalle) (r : response) :
  fst (verificar_stock productos l acc s) = Return r ->
  r = error 404 \/ r = error 409.
Proof.
  revert acc. induction l as [|[|id cant] l IH]; intros acc; simpl;
    try discriminate.
  destruct (List.find _ productos) as [p|]; simpl.
  - caso_cuando.
    + intros [= <-]. right. reflexivity.
    + apply IH.
  - intros [= <-]. left. reflexivity.
Qed.

Lemma descontar_stock_estado (ps : list producto) (l : list detalle) :
  snd (descontar_stock ps l s) = s.
Proof.
  revert ps. induction l as [|d l IH]; intros ps; simpl; auto.
  destruct (findIndex _ ps); simpl; auto.
Qed.

Lemma descontar_stock_no_return (ps : list producto) (l : list detalle)
    (r : response) :
  fst (descontar_stock ps l s) = Return r -> False.
Proof.
  revert ps. induction l as [|d l IH]; intros ps; simpl; [discriminate|].
  destruct (findIndex _ ps); [apply IH | discriminate].
Qed.

End Loops.

(** ** [POST /venta] step by step *)

Lemma record_sale_pasos (uuid ahora : string) (body : body_post_venta) (s : fs) :
  record_sale uuid ahora body s =
  match venta_items body with
  | None | Some [] => (error 400, s)
  | Some l =>
      match fst (validar_items l s), productos_json s with
      | Next _, Some productos =>
          match fst (verificar_stock productos l [] s) with
          | Next itemsDetalle =>
              match fst (descontar_stock productos itemsDetalle s) with
              | Next productos' =>
                  let s1 := tras_escribir_productos productos' s in
                  match ventas_json s with
                  | Some ventas =>
                      let v := nueva_venta uuid ahora body itemsDetalle in
                      ({| status := 201; json := VentaRegistrada v |},
                       tras_escribir_ventas (ventas ++ [v]) s1)
                  | None => (error 500, s1)
                  end
              | o => (salida o, s)
              end
          | o => (salida o, s)
          end
      | Next _, None => (error 500, s)
      | o, _ => (salida o, s)
      end
  end.
Proof.
  unfold record_sale, try_catch, post_venta.
  destruct (venta_items body) as [[|it l]|]; try reflexivity.
  cbv beta iota. set (l' := it :: l). unfold bind at 1.
  pose proof (validar_items_estado s l') as Hs.
  destruct (validar_items l' s) as [o1 s1]; simpl in Hs; subst s1.
  destruct o1 as [[]|r|]; cbv beta iota delta [fst]; try reflexivity.
  unfold bind at 1, leerJSON_productos.
  destruct (productos_json s) as [productos|] eqn:Hp; cbv beta iota delta [fst];
    try reflexivity.
  unfold bind at 1.
  pose proof (verificar_stock_estado s productos l' []) as Hs.
  destruct (verificar_stock productos l' [] s) as [o2 s2]; simpl in Hs; subst s2.
  destruct o2 as [itemsDetalle|r|]; cbv beta iota delta [fst]; try reflexivity.
  unfold bind at 1.
  pose proof (descontar_stock_estado s productos itemsDetalle) as Hs.
  destruct (descontar_stock productos itemsDetalle s) as [o3 s3];
    simpl in Hs; subst s3.
  destruct o3 as [productos'|r|]; cbv beta iota delta [fst]; try reflexivity.
  unfold bind, escribirJSON_productos, leerJSON_ventas, escribirJSON_ventas,
    responder.
  unfold tras_escribir_ventas, tras_escribir_productos.
  cbn [ventas_json]. destruct (ventas_json s); reflexivity.
Qed.

(** ** record-sale: nothing is committed when an item fails *)

(** A request whose cart has a failing entry leaves the handler before
    step 4: the state of the files is the one it found, and the answer is
    an error. *)
Lemma record_sale_falla (uuid ahora : string) (body : body_post_venta) (s : fs)
    (l : list item) :
  venta_items body = Some l ->
  (existsb falla_validacion l = true \/
   exists productos, productos_json s = Some productos /\
     existsb (fun it => falla_busqueda productos it || falla_stock productos it) l
     = true) ->
  exists r, record_sale uuid ahora body s = (r, s)
            /\ In (status r) [400; 404; 409; 500].
Proof.
  intros Hl H. rewrite record_sale_pasos, Hl.
  destruct l as [|it l]; [eexists; split; [reflexivity | simpl; auto]|].
  set (l' := it :: l) in *.
  destruct (fst (validar_items l' s)) as [[]|r|] eqn:Hv.
  - apply validar_items_next in Hv.
    destruct H as [H | (productos & Hp & H)]; [congruence|].
    rewrite Hp.
    destruct (fst (verificar_stock productos l' [] s)) as [d|r|] eqn:Hs.
    + apply verificar_stock_next in Hs. destruct Hs as [Hs _].
      exfalso. apply existsb_exists in H. destruct H as (x & Hin & Hx).
      assert (existsb (fun it => negb (es_objeto it) || falla_busqueda productos it
                                 || falla_stock productos it) l' = true) as E.
      { apply existsb_exists. exists x. split; [exact Hin|].
        destruct (es_objeto x); simpl; auto. }
      congruence.
    + eexists; split; [reflexivity|].
      destruct (verificar_stock_return _ _ _ _ _ Hs) as [-> | ->]; simpl; auto.
    + eexists; split; [reflexivity | simpl; auto].
  - rewrite (validar_items_return _ _ _ Hv).
    destruct (productos_json s); eexists; (split; [reflexivity | simpl; auto]).
  - destruct (productos_json s); eexists; (split; [reflexivity | simpl; auto 6]).
Qed.

(** C1. record-sale is all-or-nothing: when an entry of the cart fails the
    validation of the payload, or the look-up of an active product, or the
    check of the stock, whatever its place in the cart, the products
    document keeps every product and every stock as it was, no file is
    written, and the sales document has no new sale; the stock of an
    earlier entry is never taken off before a later entry has been
    checked. *)
Theorem record_sale_all_or_nothing
    (uuid ahora : string) (body : body_post_venta) (s : fs) (l : list item) :
  venta_items body = Some l ->
  (existsb falla_validacion l = true \/
   exists productos, productos_json s = Some productos /\
     existsb (fun it => falla_busqueda productos it || falla_stock productos it) l
     = true) ->
  productos_json (snd (record_sale uuid ahora body s)) = productos_json s
  /\ escrituras (snd (record_sale uuid ahora body s)) = escrituras s
  /\ ventas_json (snd (record_sale uuid ahora body s)) = ventas_json s
  /\ status (fst (record_sale uuid ahora body s)) <> 201.
Proof.
  intros Hl H.
  destruct (record_sale_falla uuid ahora body s l Hl H) as (r & -> & Hr).
  simpl in *. repeat split. intros E. rewrite E in Hr.
  intuition discriminate.
Qed.

Lemma record_sale_all_or_nothing_witness :
  let body := carrito [Item (num 1) (num 1); Item (num 1) (num 3)] in
  falla_stock [widget; gadget] (Item (num 1) (num 3)) = true
  /\ productos_json (snd (record_sale "u" "t" body tienda)) = productos_json tienda
  /\ escrituras (snd (record_sale "u" "t" body tienda)) = escrituras tienda
  /\ ventas_json (snd (record_sale "u" "t" body tienda)) = ventas_json tienda
  /\ status (fst (record_sale "u" "t" body tienda)) <> 201.
Proof.
  intros body. split; [reflexivity|].
  apply (record_sale_all_or_nothing "u" "t" body tienda
           [Item (num 1) (num 1); Item (num 1) (num 3)]).
  - reflexivity.
  - right. exists [widget; gadget]. split; reflexivity.
Defined.

(** ** record-sale: the validation of the payload *)

(** Step 1 lets a quantity through as soon as it is a number above zero,
    an integer or not. *)
Lemma falla_validacion_numero (id : value) (q : Q) :
  truthy id = true ->
  (falla_validacion (Item id (VNum (Fin q))) = true <-> (q <= 0)%Q).
Proof.
  intros Hid. unfold falla_validacion. rewrite Hid. simpl.
  unfold Qzero_bool. rewrite orb_true_iff, negb_true_iff, negb_false_iff.
  rewrite Qeq_bool_iff, Qle_bool_iff. split.
  - intros [H | H]; [rewrite H; apply Qle_refl | exact H].
  - intros H. right. exact H.
Qed.




(** ** record-sale: the sale that is registered *)

(** The only way to the answer 201: every step goes through. *)
Lemma record_sale_exito (uuid ahora : string) (body : body_post_venta)
    (s s' : fs) (r : response) :
  record_sale uuid ahora body s = (r, s') ->
  status r = 201 \/ (exists v, json r = VentaRegistrada v) ->
  exists l productos itemsDetalle productos' ventas,
    venta_items body = Some l
    /\ productos_json s = Some productos
    /\ ventas_json s = Some ventas
    /\ existsb falla_validacion l = false
    /\ existsb (fun it => negb (es_objeto it) || falla_busqueda productos it
                          || falla_stock productos it) l = false
    /\ mapM (linea_de productos) l = Some itemsDetalle
    /\ fst (descontar_stock productos itemsDetalle s) = Next productos'
    /\ r = {| status := 201;
              json := VentaRegistrada (nueva_venta uuid ahora body itemsDetalle) |}
    /\ s' = tras_escribir_ventas
              (ventas ++ [nueva_venta uuid ahora body itemsDetalle])
              (tras_escribir_productos productos' s).
Proof.
  rewrite record_sale_pasos. intros E Hr.
  assert (forall c, r = error c -> c <> 201 -> False) as Herr.
  { intros c -> Hc. destruct Hr as [Hr | [v Hr]]; [auto | discriminate]. }
  assert (forall c s0, (error c, s0) = (r, s') -> c <> 201 -> False) as Herr'.
  { intros c s0 [= <- _]. apply Herr. reflexivity. }
  destruct (venta_items body) as [[|it l]|];
    try (destruct (Herr' 400 _ E); discriminate).
  destruct (fst (validar_items (it :: l) s)) as [[]|r0|] eqn:Hv.
  - destruct (productos_json s) as [productos|];
      [| destruct (Herr' 500 _ E); discriminate].
    destruct (fst (verificar_stock productos (it :: l) [] s)) as [d|r0|] eqn:Hs.
    + destruct (fst (descontar_stock productos d s)) as [ps|r0|] eqn:Hd.
      * destruct (ventas_json s) as [ventas|];
          [| destruct (Herr' 500 _ E); discriminate].
        injection E as <- <-.
        apply validar_items_next in Hv. apply verificar_stock_next in Hs.
        destruct Hs as [Hs Hm].
        destruct (mapM (linea_de productos) (it :: l)) as [ls|] eqn:Hls;
          [|discriminate].
        simpl in Hm. injection Hm as ->.
        exists (it :: l), productos, ls, ps, ventas. repeat split; auto.
      * destruct (descontar_stock_no_return _ _ _ _ Hd).
      * destruct (Herr' 500 _ E); discriminate.
    + apply verificar_stock_return in Hs.
      destruct Hs as [-> | ->];
        [destruct (Herr' 404 _ E) | destruct (Herr' 409 _ E)]; discriminate.
    + destruct (Herr' 500 _ E); discriminate.
  - apply validar_items_return in Hv. subst r0.
    destruct (productos_json s); destruct (Herr' 400 _ E); discriminate.
  - destruct (productos_json s); destruct (Herr' 500 _ E); discriminate.
Qed.








(** ** The product routes step by step *)

Lemma create_product_pasos (body : body_post_producto) (s : fs) :
  create_product body s =
  if producto_invalido body then (error 400, s)
  else
    match productos_json s, post_nombre body with
    | Some productos, VStr n =>
        let p := nuevo_producto productos body (trim n) in
        ({| status := 201; json := ProductoCreado p |},
         tras_escribir_productos (productos ++ [p]) s)
    | _, _ => (error 500, s)
    end.
Proof.
  unfold create_product, try_catch, post_producto, producto_invalido.
  unfold bind, cuando, leerJSON_productos.
  destruct (negb (truthy (post_nombre body)) || is_undefined (post_precio body)
            || is_undefined (post_stock body)); [reflexivity|].
  destruct (negb (typeof_number (post_precio body))
            || js_lt (post_precio body) (num 0)); [reflexivity|].
  destruct (negb (Number_isInteger (post_stock body))
            || js_lt (post_stock body) (num 0)); [reflexivity|].
  simpl. destruct (productos_json s) as [productos|];
    destruct (post_nombre body); reflexivity.
Qed.

Lemma deactivate_product_pasos (id : value) (s : fs) :
  deactivate_product id s =
  if negb (truthy id) then (error 400, s)
  else
    match productos_json s with
    | None => (error 500, s)
    | Some productos =>
        match findIndex (fun p => strict_eq (id_producto p) id) productos with
        | None => (error 404, s)
        | Some idx =>
            ({| status := 200; json := ProductoEliminado |},
             tras_escribir_productos
               (alter (set_activo (VBool false)) idx productos) s)
        end
    end.
Proof.
  unfold deactivate_product, try_catch, delete_producto.
  unfold bind, cuando, leerJSON_productos.
  destruct (negb (truthy id)); [reflexivity|]. simpl.
  destruct (productos_json s) as [productos|]; [|reflexivity].
  destruct (findIndex _ productos); reflexivity.
Qed.

Lemma update_product_pasos (body : body_put_producto) (s : fs) :
  update_product body s =
  if negb (truthy (put_id_producto body)) then (error 400, s)
  else
    match productos_json s with
    | None => (error 500, s)
    | Some productos =>
        match findIndex (fun p => strict_eq (id_producto p) (put_id_producto body))
                        productos with
        | None => (error 404, s)
        | Some idx =>
            if nombre_admitido (put_nombre body) then
              let productos' := alter (campos_recibidos body) idx productos in
              ({| status := 200;
                  json := ProductoActualizado (productos' !! idx) |},
               tras_escribir_productos productos' s)
            else (error 500, s)
        end
    end.
Proof.
  unfold update_product, try_catch, put_producto.
  unfold bind at 1. unfold cuando.
  destruct (negb (truthy (put_id_producto body))); [reflexivity|].
  unfold ret at 1. unfold bind at 1, leerJSON_productos.
  destruct (productos_json s) as [productos|]; [|reflexivity].
  destruct (findIndex _ productos) as [idx|]; [|reflexivity].
  assert (forall (f g : producto -> producto) (l : list producto),
             alter f idx (alter g idx l) = alter (fun p => f (g p)) idx l) as Hcomp.
  { intros f g l. apply list_alter_alter_eq. }
  assert (forall l : list producto, alter (fun p => p) idx l = l) as Hid.
  { intros l. apply list_alter_id. reflexivity. }
  unfold campos_recibidos.
  destruct (put_nombre body) as [| |b|n|n]; simpl;
    try reflexivity;
    destruct (put_precio body), (put_stock body), (put_activo body); simpl;
    unfold bind, ret, escribirJSON_productos, responder, tras_escribir_productos;
    simpl; rewrite ?Hcomp, ?Hid; reflexivity.
Qed.

(** ** create-product: the sequential id *)





Lemma map_id_alter (f : producto -> producto) (idx : nat) (l : list producto) :
  (forall p, id_producto (f p) = id_producto p) ->
  map id_producto (alter f idx l) = map id_producto l.
Proof.
  intros Hf. revert idx. induction l as [|p l IH]; intros [|idx]; simpl;
    try reflexivity.
  - rewrite Hf. reflexivity.
  - f_equal. apply IH.
Qed.





(** ** update-product: only the fields received change *)

Lemma findIndex_Some {A} (f : A -> bool) (l : list A) (i : nat) :
  findIndex f l = Some i ->
  exists x, l !! i = Some x /\ f x = true
            /\ forall j y, (j < i)%nat -> l !! j = Some y -> f y = false.
Proof.
  revert i. induction l as [|a l IH]; intros i; simpl; [discriminate|].
  destruct (f a) eqn:Ha.
  - intros [= <-]. exists a. repeat split; auto. intros j y Hj. lia.
  - destruct (findIndex f l) as [k|]; [|discriminate].
    intros [= <-]. destruct (IH k eq_refl) as (x & Hx & Hfx & Hlt).
    exists x. repeat split; auto.
    intros [|j] y Hj; simpl; [intros [= <-]; exact Ha|].
    apply Hlt. lia.
Qed.

Lemma json_value_idempotente (v : value) : json_value (json_value v) = json_value v.
Proof. destruct v as [| | |[| |q]|]; reflexivity. Qed.

Lemma json_producto_idempotente (p : producto) :
  json_producto (json_producto p) = json_producto p.
Proof. unfold json_producto. simpl. rewrite !json_value_idempotente. reflexivity. Qed.


(** The document after a write that went through [alter] at one index:
    the other places are as before. *)
Lemma lookup_json_alter (f : producto -> producto) (l : list producto)
    (i j : nat) :
  map json_producto l = l ->
  map json_producto (alter f i l) !! j
  = if Nat.eqb i j then json_producto <$> (f <$> l !! i) else l !! j.
Proof.
  intros Hl. change (map json_producto (alter f i l))
    with (json_producto <$> alter f i l).
  rewrite list_lookup_fmap.
  destruct (Nat.eqb_spec i j) as [<- | Hne].
  - rewrite list_lookup_alter_eq. reflexivity.
  - rewrite list_lookup_alter_ne by exact Hne.
    rewrite <- Hl at 2. symmetry. apply list_lookup_fmap.
Qed.

(** [parseInt] gives an integer, or [NaN]. *)
Lemma parseInt_entero (v : value) :
  match parseInt v with
  | NaN => True
  | Infinity _ => False
  | Fin q => exists z : Z, (q == inject_Z z)%Q
  end.
Proof.
  destruct v as [| | |[| |q]|str]; simpl; auto.
  - eexists. reflexivity.
  - unfold parseInt_string.
    destruct (take_sign _) as [neg l].
    destruct (fst (take_digits l)) as [|c ds]; [exact I|].
    destruct neg; simpl signed.
    + exists (- digits_val (c :: ds)). rewrite Qred_correct.
      rewrite inject_Z_opp. reflexivity.
    + exists (digits_val (c :: ds)). apply Qred_correct.
Qed.



(** ** create-product: the validation of the body *)



(** ** Deactivated products: not listed, not sold *)







(** ** deactivate-product twice *)

Lemma findIndex_existsb {A} (f : A -> bool) (l : list A) :
  existsb f l = true -> exists i, findIndex f l = Some i.
Proof.
  induction l as [|a l IH]; simpl; [discriminate|].
  destruct (f a); [eexists; reflexivity|]. simpl. intros H.
  destruct (IH H) as [i ->]. eexists. reflexivity.
Qed.

(** [findIndex] on the id looks at the ids only. *)
Lemma findIndex_ids (g : value -> bool) (l k : list producto) :
  map id_producto l = map id_producto k ->
  findIndex (fun p => g (id_producto p)) l = findIndex (fun p => g (id_producto p)) k.
Proof.
  revert k. induction l as [|a l IH]; intros [|b k]; simpl; try discriminate;
    [reflexivity|].
  intros [= -> E]. rewrite (IH k E). reflexivity.
Qed.

Lemma map_id_json_valor (l : list producto) :
  map id_producto (map json_producto l) = map json_value (map id_producto l).
Proof. rewrite !map_map. reflexivity. Qed.

Lemma map_json_idempotente (l : list producto) :
  map json_producto (map json_producto l) = map json_producto l.
Proof.
  rewrite map_map. apply map_ext. apply json_producto_idempotente.
Qed.

Lemma desactivar_dos_veces (l : list producto) (idx : nat) :
  map json_producto
    (alter (set_activo (VBool false)) idx
       (map json_producto (alter (set_activo (VBool false)) idx l)))
  = map json_producto (alter (set_activo (VBool false)) idx l).
Proof.
  revert idx. induction l as [|p l IH]; intros [|idx]; simpl; try reflexivity.
  - rewrite map_json_idempotente. f_equal.
    unfold json_producto, set_activo. simpl.
    rewrite !json_value_idempotente. reflexivity.
  - rewrite json_producto_idempotente. f_equal. apply IH.
Qed.

(** C9. deactivate-product is idempotent: for the id of a product of the
    document (an id that the route takes: not 0, not empty), both calls
    are answered with 200, and after the second call the products document
    and the sales document are what they were after the first. *)
Theorem deactivate_product_idempotent
    (id : value) (s : fs) (productos : list producto) :
  productos_json s = Some productos ->
  map json_producto productos = productos ->
  truthy id = true ->
  existsb (fun p => strict_eq (id_producto p) id) productos = true ->
  let s1 := snd (deactivate_product id s) in
  let s2 := snd (deactivate_product id s1) in
  status (fst (deactivate_product id s)) = 200
  /\ status (fst (deactivate_product id s1)) = 200
  /\ productos_json s2 = productos_json s1
  /\ ventas_json s2 = ventas_json s1.
Proof.
  intros Hp Hjson Hid Hex.
  destruct (findIndex_existsb _ _ Hex) as [idx Hidx].
  assert (deactivate_product id s
          = ({| status := 200; json := ProductoEliminado |},
             tras_escribir_productos
               (alter (set_activo (VBool false)) idx productos) s)) as E1.
  { rewrite deactivate_product_pasos, Hp, Hid, Hidx. reflexivity. }
  rewrite E1. cbn [fst snd].
  set (productos1 := map json_producto
                       (alter (set_activo (VBool false)) idx productos)).
  assert (findIndex (fun p => strict_eq (id_producto p) id) productos1 = Some idx)
    as Hidx1.
  { rewrite <- Hidx.
    apply (findIndex_ids (fun v => strict_eq v id)).
    unfold productos1.
    rewrite map_id_json_valor, map_id_alter by reflexivity.
    rewrite <- map_id_json_valor, Hjson. reflexivity. }
  assert (deactivate_product id
            (tras_escribir_productos
               (alter (set_activo (VBool false)) idx productos) s)
          = ({| status := 200; json := ProductoEliminado |},
             tras_escribir_productos
               (alter (set_activo (VBool false)) idx productos1)
               (tras_escribir_productos
                  (alter (set_activo (VBool false)) idx productos) s))) as E2.
  { rewrite deactivate_product_pasos, Hid. cbn [negb productos_json
      tras_escribir_productos]. fold productos1. rewrite Hidx1. reflexivity. }
  rewrite E2. cbn [fst snd status productos_json ventas_json
                     tras_escribir_productos].
  repeat split. f_equal. apply desactivar_dos_veces.
Qed.

Lemma deactivate_product_idempotent_witness :
  let s1 := snd (deactivate_product (num 1) tienda) in
  let s2 := snd (deactivate_product (num 1) s1) in
  productos_json s1 = Some [set_activo (VBool false) widget; gadget]
  /\ status (fst (deactivate_product (num 1) tienda)) = 200
  /\ status (fst (deactivate_product (num 1) s1)) = 200
  /\ productos_json s2 = productos_json s1
  /\ ventas_json s2 = ventas_json s1.
Proof.
  intros s1 s2. split; [reflexivity|].
  apply (deactivate_product_idempotent (num 1) tienda [widget; gadget]);
    reflexivity.
Defined.

(** ** The stock under zero *)

Lemma json_stock_no_negativo (p : producto) :
  stock_no_negativo p -> stock_no_negativo (json_producto p).
Proof. intros (q & E & Hq). exists q. simpl. rewrite E. auto. Qed.

(** create-product and deactivate-product keep the invariant: the first
    appends a product whose stock passed the test [stock < 0], the second
    writes no stock. *)
Lemma create_deactivate_stock_no_negativo (s : fs) :
  stocks_no_negativos s ->
  (forall body, stocks_no_negativos (snd (create_product body s)))
  /\ (forall id, stocks_no_negativos (snd (deactivate_product id s))).
Proof.
  intros Hs. split.
  - intros body. rewrite create_product_pasos.
    destruct (producto_invalido body) eqn:Hinv; [exact Hs|].
    destruct (productos_json s) as [productos|] eqn:Hp; [|exact Hs].
    destruct (post_nombre body) as [| | | |n] eqn:Hn; try exact Hs.
    intros ps [= <-]. rewrite map_app. apply Forall_app. split.
    + apply Forall_map.
      eapply Forall_impl; [apply (Hs productos Hp) | apply json_stock_no_negativo].
    + constructor; [|constructor]. apply json_stock_no_negativo.
      unfold producto_invalido in Hinv.
      apply orb_false_elim in Hinv. destruct Hinv as [_ Hinv].
      apply orb_false_elim in Hinv. destruct Hinv as [Hint Hneg].
      apply negb_false_iff in Hint.
      unfold stock_no_negativo. cbn [stock nuevo_producto].
      destruct (post_stock body) as [| | |[| |q]|]; try discriminate.
      exists q. split; [reflexivity|].
      simpl in Hneg. apply negb_false_iff in Hneg.
      apply Qle_bool_iff in Hneg. exact Hneg.
  - intros id. rewrite deactivate_product_pasos.
    destruct (negb (truthy id)); [exact Hs|].
    destruct (productos_json s) as [productos|] eqn:Hp; [|exact Hs].
    destruct (findIndex _ productos) as [idx|]; [|exact Hs].
    intros ps [= <-]. apply Forall_map.
    eapply Forall_impl; [|apply json_stock_no_negativo].
    apply Forall_alter; [exact (Hs productos Hp)|].
    intros p _ Hq. exact Hq.
Qed.

(** C2. The invariant [stock >= 0] holds in the shop and is broken by two
    operations: update-product stores the negative stock that the request
    carries, and record-sale, for a cart that names the widget in two
    lines of two units, takes two units twice off the two in stock. *)
Theorem stock_below_zero :
  let put := {| put_id_producto := num 1; put_nombre := VUndef;
                put_precio := VUndef; put_stock := num (-5);
                put_activo := VUndef |} in
  let cart := carrito [Item (num 1) (num 2); Item (num 1) (num 2)] in
  stocks_no_negativos tienda
  /\ update_product put tienda
     = ({| status := 200;
           json := ProductoActualizado (Some (set_stock (num (-5)) widget)) |},
        tras_escribir_productos [set_stock (num (-5)) widget; gadget] tienda)
  /\ ~ stocks_no_negativos (snd (update_product put tienda))
  /\ status (fst (record_sale "u" "t" cart tienda)) = 201
  /\ productos_json (snd (record_sale "u" "t" cart tienda))
     = Some [set_stock (num (-2)) widget; gadget]
  /\ ~ stocks_no_negativos (snd (record_sale "u" "t" cart tienda)).
Proof.
  assert (forall z, z < 0 ->
            ~ Forall stock_no_negativo [set_stock (num z) widget; gadget]) as Hneg.
  { intros z Hz H. apply Forall_cons in H. destruct H as [(q & [= <-] & Hq) _].
    unfold Qle in Hq. simpl in Hq. lia. }
  intros put cart. split; [|split; [|split; [|split; [|split]]]].
  - intros ps [= <-].
    repeat constructor; eexists; (split; [reflexivity | discriminate]).
  - reflexivity.
  - intros H. apply (Hneg (-5)); [lia|]. apply H. reflexivity.
  - reflexivity.
  - reflexivity.
  - intros H. apply (Hneg (-2)); [lia|]. apply H. reflexivity.
Qed.

(** ** record-sale: a product in several lines of the cart *)


Section Repetido.

Variables (s : fs) (pre post : list producto) (i : Q).

Hypothesis Hpre :
  forallb (fun p' => negb (strict_eq (id_producto p') (VNum (Fin i)))) pre = true.





End Repetido.






(** * Further properties of the routes *)

(** ** The two documents: what is written is what is read *)




(** ** list-active-products and list-sales *)

Lemma filter_sublist_orden {A} (f : A -> bool) (l : list A) :
  sublist (List.filter f l) l.
Proof.
  induction l as [|a l IH]; simpl; [constructor|].
  destruct (f a); [apply sublist_skip | apply sublist_cons]; exact IH.
Qed.

(** X2. list-active-products writes nothing.  It answers 500 when the
    products document cannot be read; otherwise it answers 200 with the
    products whose [activo] is truthy, all of them and only them, in the
    order of the document. *)
Theorem list_active_products_read_only (s : fs) :
  snd (list_active_products s) = s
  /\ match productos_json s with
     | None => fst (list_active_products s) = error 500
     | Some productos =>
         exists activos,
           fst (list_active_products s) = {| status := 200; json := Activos activos |}
           /\ (forall p, In p activos <-> In p productos /\ truthy (activo p) = true)
           /\ sublist activos productos
     end.
Proof.
  unfold list_active_products, try_catch, get_productos, bind,
    leerJSON_productos, responder.
  destruct (productos_json s) as [productos|]; simpl; split; try reflexivity.
  eexists. split; [reflexivity|]. split.
  - intros p. apply filter_In.
  - apply filter_sublist_orden.
Qed.

(** ** create-product: what is accepted, and what becomes of it *)





(** X4. A body that passes the three tests is still answered with 500,
    and nothing is written, when the products document cannot be read or
    when the name is not a string, so that [nombre.trim()] throws. *)
Theorem create_product_internal_error (body : body_post_producto) (s : fs) :
  producto_invalido body = false ->
  productos_json s = None \/ (forall n, post_nombre body <> VStr n) ->
  create_product body s = (error 500, s).
Proof.
  intros Hval H. rewrite create_product_pasos, Hval.
  destruct H as [-> | H]; [reflexivity|].
  destruct (productos_json s); [|reflexivity].
  destruct (post_nombre body) as [| | | |n]; try reflexivity.
  destruct (H n). reflexivity.
Qed.

Lemma create_product_internal_error_witness :
  create_product {| post_nombre := VBool true; post_precio := num 3;
                    post_stock := num 1 |} tienda
  = (error 500, tienda).
Proof.
  apply (create_product_internal_error
           {| post_nombre := VBool true; post_precio := num 3;
              post_stock := num 1 |} tienda);
    [reflexivity | right; discriminate].
Defined.

(** X5. The product that create-product has just created is the last one
    that list-active-products returns, after the active products that
    were there. *)
Theorem create_product_listed
    (body : body_post_producto) (s s' : fs) (productos : list producto)
    (r : response) :
  productos_json s = Some productos ->
  map json_producto productos = productos ->
  create_product body s = (r, s') ->
  status r = 201 ->
  exists p,
    json r = ProductoCreado p
    /\ fst (list_active_products s')
       = {| status := 200;
            json := Activos (List.filter (fun p => truthy (activo p)) productos
                             ++ [json_producto p]) |}.
Proof.
  intros Hp Hjson E Hr. rewrite create_product_pasos, Hp in E.
  destruct (producto_invalido body); [injection E as <- _; discriminate|].
  destruct (post_nombre body) as [| | | |n];
    try (injection E as <- _; discriminate).
  injection E as <- <-. eexists. split; [reflexivity|].
  unfold list_active_products, try_catch, get_productos, bind,
    leerJSON_productos, responder. simpl.
  rewrite map_app, Hjson, List.filter_app. reflexivity.
Qed.

Lemma create_product_listed_witness :
  let body := {| post_nombre := VStr "Gizmo"; post_precio := num 3;
                 post_stock := num 1 |} in
  exists p,
    json (fst (create_product body tienda)) = ProductoCreado p
    /\ fst (list_active_products (snd (create_product body tienda)))
       = {| status := 200; json := Activos ([widget] ++ [json_producto p]) |}.
Proof.
  intros body.
  apply (create_product_listed body tienda (snd (create_product body tienda))
           [widget; gadget] (fst (create_product body tienda)));
    reflexivity.
Defined.

(** ** update-product and deactivate-product: the errors *)

Lemma findIndex_ninguno {A} (f : A -> bool) (l : list A) :
  findIndex f l = None <-> forallb (fun x => negb (f x)) l = true.
Proof.
  induction l as [|a l IH]; simpl; [tauto|].
  destruct (f a); simpl; [split; discriminate|].
  rewrite <- IH. destruct (findIndex f l); simpl; split; congruence.
Qed.

(** X6. An update-product that is not answered with 200 has changed
    nothing, and its status tells why: 400 when the id is missing, [0] or
    empty, 404 when no product of the document has the id, 500 when the
    document cannot be read or when a product has the id but the name
    received is not a string. *)
Theorem update_product_errors
    (body : body_put_producto) (s s' : fs) (r : response) :
  update_product body s = (r, s') ->
  status r <> 200 ->
  s' = s
  /\ ((r = error 400 /\ truthy (put_id_producto body) = false)
      \/ (r = error 404
          /\ exists productos,
               productos_json s = Some productos
               /\ forallb (fun p => negb (strict_eq (id_producto p)
                                           (put_id_producto body)))
                          productos = true)
      \/ (r = error 500
          /\ (productos_json s = None
              \/ nombre_admitido (put_nombre body) = false))).
Proof.
  rewrite update_product_pasos. intros E Hr.
  destruct (truthy (put_id_producto body)); simpl in E;
    [|injection E as <- <-; auto].
  destruct (productos_json s) as [productos|];
    [|injection E as <- <-; auto 6].
  destruct (findIndex _ productos) as [idx|] eqn:Hidx.
  - destruct (nombre_admitido (put_nombre body));
      injection E as <- <-; [destruct Hr; reflexivity | auto 6].
  - injection E as <- <-. split; [reflexivity|]. right. left.
    split; [reflexivity|]. exists productos. split; [reflexivity|].
    apply findIndex_ninguno. exact Hidx.
Qed.

Lemma update_product_errors_witness :
  let body := {| put_id_producto := num 7; put_nombre := VStr "x";
                 put_precio := VUndef; put_stock := VUndef;
                 put_activo := VUndef |} in
  update_product body tienda = (error 404, tienda)
  /\ snd (update_product body tienda) = tienda.
Proof.
  intros body. split; [reflexivity|].
  apply (update_product_errors body tienda (snd (update_product body tienda))
           (fst (update_product body tienda)));
    [reflexivity | discriminate].
Defined.

(** X7. A deactivate-product that is not answered with 200 has changed
    nothing: it is the 400 of an id that is missing, [0] or empty (even
    when a product has the id [0]), the 404 of an id that no product has,
    or the 500 of a document that cannot be read. *)
Theorem deactivate_product_errors (id : value) (s s' : fs) (r : response) :
  deactivate_product id s = (r, s') ->
  status r <> 200 ->
  s' = s
  /\ ((r = error 400 /\ truthy id = false)
      \/ (r = error 404
          /\ exists productos,
               productos_json s = Some productos
               /\ forallb (fun p => negb (strict_eq (id_producto p) id))
                          productos = true)
      \/ (r = error 500 /\ productos_json s = None)).
Proof.
  rewrite deactivate_product_pasos. intros E Hr.
  destruct (truthy id); simpl in E; [|injection E as <- <-; auto].
  destruct (productos_json s) as [productos|];
    [|injection E as <- <-; auto 6].
  destruct (findIndex _ productos) as [idx|] eqn:Hidx.
  - injection E as <- <-. destruct Hr. reflexivity.
  - injection E as <- <-. split; [reflexivity|]. right. left.
    split; [reflexivity|]. exists productos. split; [reflexivity|].
    apply findIndex_ninguno. exact Hidx.
Qed.

Lemma deactivate_product_errors_witness :
  let s0 := {| productos_json := Some [{| id_producto := num 0;
                                         nombre := VStr "Zero";
                                         precio := num 1;
                                         activo := VBool true;
                                         stock := num 1 |}];
               ventas_json := Some []; escrituras := [] |} in
  deactivate_product (num 0) s0 = (error 400, s0)
  /\ snd (deactivate_product (num 0) s0) = s0.
Proof.
  intros s0. split; [reflexivity|].
  apply (deactivate_product_errors (num 0) s0
           (snd (deactivate_product (num 0) s0))
           (fst (deactivate_product (num 0) s0)));
    [reflexivity | discriminate].
Defined.

(** ** update-product on a deactivated product, and on a stored price *)

Lemma reactivar_lista (l : list producto) (idx : nat) (p : producto) :
  map json_producto l = l ->
  l !! idx = Some p ->
  activo p = VBool true ->
  map json_producto
    (alter (set_activo (VBool true)) idx
       (map json_producto (alter (set_activo (VBool false)) idx l)))
  = l.
Proof.
  revert idx. induction l as [|a l IH]; intros idx Hl Hidx Ha; [reflexivity|].
  simpl in Hl. injection Hl as Hja Hjl.
  destruct idx as [|idx]; simpl in Hidx.
  - injection Hidx as ->. destruct p as [i n pr a' st]. simpl in Ha. subst a'.
    unfold json_producto in Hja. simpl in Hja. injection Hja. intros.
    simpl. rewrite map_json_idempotente, Hjl. f_equal.
    unfold json_producto, set_activo. simpl.
    rewrite !json_value_idempotente. congruence.
  - change (alter (set_activo (VBool false)) (S idx) (a :: l))
      with (a :: alter (set_activo (VBool false)) idx l).
    cbn [map].
    change (alter (set_activo (VBool true)) (S idx)
              (json_producto a
               :: map json_producto (alter (set_activo (VBool false)) idx l)))
      with (json_producto a
            :: alter (set_activo (VBool true)) idx
                 (map json_producto (alter (set_activo (VBool false)) idx l))).
    cbn [map]. rewrite json_producto_idempotente, Hja. f_equal.
    apply (IH idx Hjl Hidx Ha).
Qed.

(** The index that [findIndex] gives for an id after a write that kept
    the ids. *)
Lemma findIndex_tras_escribir (f : producto -> producto) (id : value)
    (l : list producto) (idx : nat) :
  map json_producto l = l ->
  (forall p, id_producto (f p) = id_producto p) ->
  findIndex (fun p => strict_eq (id_producto p) id)
            (map json_producto (alter f idx l))
  = findIndex (fun p => strict_eq (id_producto p) id) l.
Proof.
  intros Hl Hf. apply (findIndex_ids (fun v => strict_eq v id)).
  rewrite map_id_json_valor, map_id_alter by exact Hf.
  rewrite <- map_id_json_valor, Hl. reflexivity.
Qed.

(** X8. A deactivated product is still found by its id: update-product
    with [activo: true] on the product that deactivate-product has just
    deactivated is answered with 200 and gives back the products document
    as it was before the deactivation. *)
Theorem deactivate_then_reactivate
    (id : value) (s : fs) (productos : list producto) (idx : nat)
    (p : producto) :
  productos_json s = Some productos ->
  map json_producto productos = productos ->
  truthy id = true ->
  findIndex (fun p => strict_eq (id_producto p) id) productos = Some idx ->
  productos !! idx = Some p ->
  activo p = VBool true ->
  let s1 := snd (deactivate_product id s) in
  let body := {| put_id_producto := id; put_nombre := VUndef;
                 put_precio := VUndef; put_stock := VUndef;
                 put_activo := VBool true |} in
  status (fst (update_product body s1)) = 200
  /\ productos_json (snd (update_product body s1)) = Some productos
  /\ ventas_json (snd (update_product body s1)) = ventas_json s.
Proof.
  intros Hp Hjson Hid Hidx Hlk Ha s1 body.
  assert (s1 = tras_escribir_productos
                 (alter (set_activo (VBool false)) idx productos) s) as ->.
  { unfold s1. rewrite deactivate_product_pasos, Hp, Hid, Hidx. reflexivity. }
  rewrite update_product_pasos. cbn [put_id_producto body]. rewrite Hid.
  cbn [negb productos_json tras_escribir_productos].
  rewrite (findIndex_tras_escribir _ id productos idx Hjson) by reflexivity.
  rewrite Hidx. cbn [nombre_admitido put_nombre body fst snd status
                       productos_json ventas_json tras_escribir_productos].
  repeat split. f_equal.
  apply (reactivar_lista productos idx p Hjson Hlk Ha).
Qed.

Lemma deactivate_then_reactivate_witness :
  let s1 := snd (deactivate_product (num 1) tienda) in
  let body := {| put_id_producto := num 1; put_nombre := VUndef;
                 put_precio := VUndef; put_stock := VUndef;
                 put_activo := VBool true |} in
  productos_json s1 = Some [set_activo (VBool false) widget; gadget]
  /\ status (fst (update_product body s1)) = 200
  /\ productos_json (snd (update_product body s1)) = Some [widget; gadget]
  /\ ventas_json (snd (update_product body s1)) = ventas_json tienda.
Proof.
  intros s1 body. split; [reflexivity|].
  apply (deactivate_then_reactivate (num 1) tienda [widget; gadget] 0%nat widget);
    reflexivity.
Defined.

Lemma round_half_up_entero (q : Q) (n : Z) :
  (q == inject_Z n)%Q -> round_half_up q = n.
Proof.
  intros E. unfold round_half_up.
  assert (q + (1 # 2) == (2 * n + 1) # 2)%Q as ->.
  { rewrite E. unfold Qeq, Qplus, inject_Z. simpl. lia. }
  unfold Qfloor. simpl.
  symmetry. apply (Z.div_unique (2 * n + 1) 2 n 1); lia.
Qed.

(** A number with two decimals is its own rounding to two decimals. *)
Lemma toFixed2_idempotente (x : number) : toFixed2 (toFixed2 x) = toFixed2 x.
Proof.
  destruct x as [|neg|q]; try reflexivity.
  unfold toFixed2 at 2.
  set (n := if Qneg_bool q then - round_half_up (- q * 100)
            else round_half_up (q * 100)).
  unfold toFixed2.
  set (r := Qred (inject_Z n / 100)).
  assert (r * 100 == inject_Z n)%Q as Er.
  { unfold r. rewrite Qred_correct. field. }
  assert ((if Qneg_bool r then - round_half_up (- r * 100)
           else round_half_up (r * 100)) = n) as ->; [|reflexivity].
  destruct (Qneg_bool r).
  - rewrite (round_half_up_entero (- r * 100) (- n)); [lia|].
    rewrite inject_Z_opp, <- Er. ring.
  - apply round_half_up_entero. exact Er.
Qed.

Lemma alter_fijo {A} (f : A -> A) (l : list A) (idx : nat) (x : A) :
  l !! idx = Some x -> f x = x -> alter f idx l = l.
Proof.
  revert idx. induction l as [|a l IH]; intros [|idx]; simpl; try discriminate.
  - intros [= ->] ->. reflexivity.
  - intros Hidx Hf. f_equal. apply (IH idx Hidx Hf).
Qed.

(** X9. A price as the document stores it is a fixed point of the
    rounding: update-product with the price that the product already has
    is answered with 200 and writes the products document back as it
    was. *)
Theorem update_product_stored_price
    (body : body_put_producto) (s : fs) (productos : list producto)
    (idx : nat) (p : producto) (x : number) :
  productos_json s = Some productos ->
  map json_producto productos = productos ->
  truthy (put_id_producto body) = true ->
  findIndex (fun p => strict_eq (id_producto p) (put_id_producto body)) productos
  = Some idx ->
  productos !! idx = Some p ->
  precio p = VNum (toFixed2 x) ->
  put_nombre body = VUndef -> put_stock body = VUndef ->
  put_activo body = VUndef -> put_precio body = precio p ->
  update_product body s
  = ({| status := 200; json := ProductoActualizado (Some p) |},
     {| productos_json := Some productos;
        ventas_json := ventas_json s;
        escrituras := escrituras s ++ [DB_PRODUCTOS] |}).
Proof.
  intros Hp Hjson Hid Hidx Hlk Hprecio Hn Hs Ha Hpr.
  rewrite update_product_pasos, Hid, Hp, Hidx, Hn.
  cbn [negb nombre_admitido].
  assert (campos_recibidos body p = p) as Hf.
  { unfold campos_recibidos. rewrite Hn, Hs, Ha, Hpr, Hprecio.
    cbn [is_undefined parseFloat]. rewrite toFixed2_idempotente.
    rewrite <- Hprecio. destruct p. reflexivity. }
  rewrite (alter_fijo _ _ _ _ Hlk Hf).
  unfold tras_escribir_productos. rewrite Hjson, Hlk. reflexivity.
Qed.

Lemma update_product_stored_price_witness :
  let body := {| put_id_producto := num 1; put_nombre := VUndef;
                 put_precio := num 10; put_stock := VUndef;
                 put_activo := VUndef |} in
  update_product body tienda
  = ({| status := 200; json := ProductoActualizado (Some widget) |},
     {| productos_json := Some [widget; gadget];
        ventas_json := ventas_json tienda;
        escrituras := escrituras tienda ++ [DB_PRODUCTOS] |}).
Proof.
  intros body.
  apply (update_product_stored_price body tienda [widget; gadget] 0%nat widget
           (Fin 10)); reflexivity.
Defined.

(** ** The sales document and the product routes *)

(** X10. The product routes never touch the sales document: after
    list-active-products, create-product, update-product and
    deactivate-product the sales are what they were, and the only file
    that may have been written is the products document, once; list-sales
    writes nothing and answers with the sales document as it is, or with
    500 when it cannot be read. *)
Theorem product_routes_keep_sales (s : fs) :
  let escribe_a_lo_mas_productos (s' : fs) :=
    ventas_json s' = ventas_json s
    /\ (escrituras s' = escrituras s
        \/ escrituras s' = escrituras s ++ [DB_PRODUCTOS]) in
  escribe_a_lo_mas_productos (snd (list_active_products s))
  /\ (forall body, escribe_a_lo_mas_productos (snd (create_product body s)))
  /\ (forall body, escribe_a_lo_mas_productos (snd (update_product body s)))
  /\ (forall id, escribe_a_lo_mas_productos (snd (deactivate_product id s)))
  /\ snd (list_sales s) = s
  /\ fst (list_sales s) = match ventas_json s with
                          | Some ventas => (200, Ventas ventas)
                          | None => (500, ErrorVentas)
                          end.
Proof.
  cbv zeta. split; [|split; [|split; [|split; [|split]]]].
  - unfold list_active_products, try_catch, get_productos, bind,
      leerJSON_productos, responder.
    destruct (productos_json s); simpl; auto.
  - intros body. rewrite create_product_pasos.
    destruct (producto_invalido body); [auto|].
    destruct (productos_json s); [|auto].
    destruct (post_nombre body); simpl; auto.
  - intros body. rewrite update_product_pasos.
    destruct (negb (truthy (put_id_producto body))); [auto|].
    destruct (productos_json s) as [productos|]; [|auto].
    destruct (findIndex _ productos); [|auto].
    destruct (nombre_admitido (put_nombre body)); simpl; auto.
  - intros id. rewrite deactivate_product_pasos.
    destruct (negb (truthy id)); [auto|].
    destruct (productos_json s) as [productos|]; [|auto].
    destruct (findIndex _ productos); simpl; auto.
  - unfold list_sales, get_ventas, leerJSON_ventas.
    destruct (ventas_json s); reflexivity.
  - unfold list_sales, get_ventas, leerJSON_ventas.
    destruct (ventas_json s); reflexivity.
Qed.

(** ** record-sale: the other errors *)

Lemma verificar_stock_409 (s : fs) (productos : list producto)
    (pre post : list item) (id cant : value) (p : producto)
    (acc : list detalle) :
  existsb (fun it => negb (es_objeto it) || falla_busqueda productos it
                     || falla_stock productos it) pre = false ->
  buscar productos id = Some p ->
  js_lt (stock p) cant = true ->
  fst (verificar_stock productos (pre ++ Item id cant :: post) acc s)
  = Return (error 409).
Proof.
  intros Hpre Hid Hlt. revert acc.
  induction pre as [|[|i c] pre IH]; intros acc; simpl in *.
  - fold (buscar productos id). rewrite Hid. unfold bind, cuando.
    rewrite Hlt. reflexivity.
  - discriminate.
  - fold (buscar productos i).
    destruct (buscar productos i) as [p'|]; [|discriminate].
    unfold bind, cuando. simpl in Hpre.
    destruct (js_lt (stock p') c); [discriminate|]. simpl. apply IH. exact Hpre.
Qed.

Lemma validar_items_throw (s : fs) (pre post : list item) :
  existsb falla_validacion pre = false ->
  fst (validar_items (pre ++ ItemNull :: post) s) = Throw.
Proof.
  intros Hpre. induction pre as [|[|i c] pre IH]; simpl in *;
    [reflexivity | discriminate |].
  unfold bind, cuando. apply orb_false_elim in Hpre. destruct Hpre as [-> Hpre].
  simpl. apply IH. exact Hpre.
Qed.

Lemma objetos_sin_fallo (productos : list producto) (l : list item) :
  existsb falla_validacion l = false ->
  existsb (fun it => falla_busqueda productos it || falla_stock productos it) l
  = false ->
  existsb (fun it => negb (es_objeto it) || falla_busqueda productos it
                     || falla_stock productos it) l = false.
Proof.
  induction l as [|[|i c] l IH]; simpl; [reflexivity | discriminate |].
  intros Hv Hl. apply orb_false_elim in Hv. destruct Hv as [_ Hv].
  apply orb_false_elim in Hl. destruct Hl as [-> Hl]. simpl.
  apply IH; assumption.
Qed.

(** X11. record-sale answers 409, and changes nothing, when every entry
    of the cart passes the validation of the payload, the entries before
    some entry resolve to active products with enough stock, and that
    entry resolves to an active product whose stock is less than the
    quantity asked for. *)
Theorem record_sale_conflict
    (uuid ahora : string) (body : body_post_venta) (s : fs)
    (productos : list producto) (pre post : list item) (id cant : value)
    (p : producto) :
  productos_json s = Some productos ->
  venta_items body = Some (pre ++ Item id cant :: post) ->
  existsb falla_validacion (pre ++ Item id cant :: post) = false ->
  existsb (fun it => falla_busqueda productos it || falla_stock productos it) pre
  = false ->
  buscar productos id = Some p ->
  js_lt (stock p) cant = true ->
  record_sale uuid ahora body s = (error 409, s).
Proof.
  intros Hp Hl Hval Hpre Hid Hlt. rewrite record_sale_pasos, Hl.
  pose proof (proj2 (validar_items_next s _) Hval) as Hv.
  assert (existsb falla_validacion pre = false) as Hvpre.
  { rewrite existsb_app in Hval. apply orb_false_elim in Hval. tauto. }
  pose proof (verificar_stock_409 s productos pre post id cant p []
                (objetos_sin_fallo productos pre Hvpre Hpre) Hid Hlt) as Hs.
  destruct (pre ++ Item id cant :: post) as [|it l] eqn:El;
    [destruct pre; discriminate|].
  rewrite Hv, Hp, Hs. reflexivity.
Qed.

Lemma record_sale_conflict_witness :
  record_sale "u" "t" (carrito [Item (num 1) (num 2); Item (num 1) (num 3)]) tienda
  = (error 409, tienda).
Proof.
  apply (record_sale_conflict "u" "t"
           (carrito [Item (num 1) (num 2); Item (num 1) (num 3)]) tienda
           [widget; gadget] [Item (num 1) (num 2)] [] (num 1) (num 3) widget);
    reflexivity.
Defined.

(** X12. record-sale answers 500, and changes nothing, when the cart has
    a [null] entry and the entries before it pass the validation of the
    payload (reading [id_producto] of [null] throws), and when the cart
    passes the validation but the products document cannot be read. *)
Theorem record_sale_internal_error
    (uuid ahora : string) (body : body_post_venta) (s : fs) (l : list item) :
  venta_items body = Some l ->
  (exists pre post, l = pre ++ ItemNull :: post
                    /\ existsb falla_validacion pre = false)
  \/ (l <> [] /\ existsb falla_validacion l = false /\ productos_json s = None) ->
  record_sale uuid ahora body s = (error 500, s).
Proof.
  intros Hl H. rewrite record_sale_pasos, Hl.
  destruct H as [(pre & post & -> & Hpre) | (Hne & Hval & Hp)].
  - pose proof (validar_items_throw s pre post Hpre) as Hv.
    destruct (pre ++ ItemNull :: post) as [|it l'] eqn:El;
      [destruct pre; discriminate|].
    rewrite Hv. destruct (productos_json s); reflexivity.
  - destruct l as [|it l']; [congruence|].
    rewrite (proj2 (validar_items_next s _) Hval), Hp. reflexivity.
Qed.

Lemma record_sale_internal_error_witness :
  record_sale "u" "t" (carrito [Item (num 1) (num 1); ItemNull]) tienda
  = (error 500, tienda).
Proof.
  apply (record_sale_internal_error "u" "t"
           (carrito [Item (num 1) (num 1); ItemNull]) tienda
           [Item (num 1) (num 1); ItemNull]);
    [reflexivity|].
  left. exists [Item (num 1) (num 1)], []. split; reflexivity.
Defined.

(** ** record-sale: what a sale that goes through writes *)

(** X13. A record-sale answered with 201 writes the products document
    and then the sales document, once each; the sales that were there
    stay, in their order, and the new sale comes after them, with the
    identifier and the time given to the request and the [id_usuario] of
    the body, [null] when the body has none.  list-sales then returns
    exactly that list. *)
Theorem record_sale_appends_sale
    (uuid ahora : string) (body : body_post_venta) (s s' : fs)
    (r : response) (ventas : list venta) :
  record_sale uuid ahora body s = (r, s') ->
  status r = 201 ->
  ventas_json s = Some ventas ->
  map json_venta ventas = ventas ->
  exists v,
    json r = VentaRegistrada v
    /\ id_venta v = uuid
    /\ fecha v = ahora
    /\ id_usuario v = (if is_undefined (venta_id_usuario body) then VNull
                       else venta_id_usuario body)
    /\ ventas_json s' = Some (ventas ++ [json_venta v])
    /\ escrituras s' = escrituras s ++ [DB_PRODUCTOS; DB_VENTAS]
    /\ fst (list_sales s') = (200, Ventas (ventas ++ [json_venta v])).
Proof.
  intros E Hr Hv Hjson.
  destruct (record_sale_exito uuid ahora body s s' r E (or_introl Hr))
    as (l & productos & ls & ps & ventas0 & _ & _ & Hv0 & _ & _ & _ & _ & -> & ->).
  rewrite Hv in Hv0. injection Hv0 as <-.
  exists (nueva_venta uuid ahora body ls).
  unfold list_sales, get_ventas, leerJSON_ventas, tras_escribir_ventas,
    tras_escribir_productos.
  cbn [json ventas_json escrituras fst id_venta fecha id_usuario nueva_venta].
  rewrite map_app, Hjson, <- app_assoc. repeat split.
Qed.

Lemma record_sale_appends_sale_witness :
  let body := {| venta_items := Some [Item (num 1) (num 1)];
                 venta_id_usuario := VStr "ana" |} in
  exists v,
    json (fst (record_sale "u" "t" body tienda)) = VentaRegistrada v
    /\ id_venta v = "u"%string
    /\ fecha v = "t"%string
    /\ id_usuario v = VStr "ana"
    /\ ventas_json (snd (record_sale "u" "t" body tienda)) = Some ([] ++ [json_venta v])
    /\ escrituras (snd (record_sale "u" "t" body tienda))
       = escrituras tienda ++ [DB_PRODUCTOS; DB_VENTAS]
    /\ fst (list_sales (snd (record_sale "u" "t" body tienda)))
       = (200, Ventas ([] ++ [json_venta v])).
Proof.
  intros body.
  apply (record_sale_appends_sale "u" "t" body tienda
           (snd (record_sale "u" "t" body tienda))
           (fst (record_sale "u" "t" body tienda)) []);
    reflexivity.
Defined.

(** X14. The lines of a registered sale follow the entries of the cart,
    one line per entry and in the same order; each line carries the id,
    the name and the price of the active product that the entry resolved
    to, as the products document had them when the sale was made, and the
    quantity of the entry, which was not above the stock read. *)
Theorem record_sale_lines
    (uuid ahora : string) (body : body_post_venta) (s s' : fs)
    (r : response) (v : venta) (l : list item) (productos : list producto) :
  record_sale uuid ahora body s = (r, s') ->
  json r = VentaRegistrada v ->
  venta_items body = Some l ->
  productos_json s = Some productos ->
  Forall2 (fun it d =>
             exists id cant p,
               it = Item id cant
               /\ buscar productos id = Some p
               /\ js_lt (stock p) cant = false
               /\ linea_id_producto d = id_producto p
               /\ linea_nombre d = nombre p
               /\ precio_unitario d = precio p
               /\ cantidad d = cant)
          l (items v).
Proof.
  intros E Hv Hl Hp.
  destruct (record_sale_exito uuid ahora body s s' r E)
    as (l0 & productos0 & ls & ps & ventas & Hl0 & Hp0 & _ & _ & Hs & Hm & _
        & -> & _).
  { right. exists v. exact Hv. }
  rewrite Hl in Hl0. injection Hl0 as <-.
  rewrite Hp in Hp0. injection Hp0 as <-.
  simpl in Hv. injection Hv as <-. simpl. clear E Hl Hp.
  apply mapM_Some_1 in Hm.
  induction Hm as [|it d l ls Hd _ IH]; [constructor|].
  simpl in Hs. apply orb_false_elim in Hs. destruct Hs as [Hit Hs].
  constructor; [|apply IH; exact Hs].
  destruct it as [|id cant]; [discriminate|]. simpl in Hd, Hit.
  destruct (buscar productos id) as [p|] eqn:Hb; [|discriminate].
  injection Hd as <-. exists id, cant, p. simpl. repeat split; auto.
Qed.

Lemma record_sale_lines_witness :
  let body := carrito [Item (num 1) (num 2)] in
  Forall2 (fun it d =>
             exists id cant p,
               it = Item id cant
               /\ buscar [widget; gadget] id = Some p
               /\ js_lt (stock p) cant = false
               /\ linea_id_producto d = id_producto p
               /\ linea_nombre d = nombre p
               /\ precio_unitario d = precio p
               /\ cantidad d = cant)
          [Item (num 1) (num 2)]
          (items (nueva_venta "u" "t" body [linea_repetida widget 2])).
Proof.
  intros body.
  apply (record_sale_lines "u" "t" body tienda
           (snd (record_sale "u" "t" body tienda))
           (fst (record_sale "u" "t" body tienda))
           (nueva_venta "u" "t" body [linea_repetida widget 2])
           [Item (num 1) (num 2)] [widget; gadget]);
    reflexivity.
Defined.

(** The loop of step 4 changes stocks only: what a field other than
    [stock] gives is kept, product by product. *)
Lemma map_campo_alter (g : producto -> value) (f : producto -> producto)
    (idx : nat) (l : list producto) :
  (forall p, g (f p) = g p) -> map g (alter f idx l) = map g l.
Proof.
  intros Hf. revert idx. induction l as [|p l IH]; intros [|idx]; simpl;
    try reflexivity.
  - rewrite Hf. reflexivity.
  - f_equal. apply IH.
Qed.

Lemma descontar_stock_campo (g : producto -> value) (s : fs)
    (ls : list detalle) (ps ps' : list producto) :
  (forall v p, g (set_stock v p) = g p) ->
  fst (descontar_stock ps ls s) = Next ps' ->
  map g ps' = map g ps.
Proof.
  intros Hg. revert ps. induction ls as [|d ls IH]; intros ps; simpl.
  - intros [= ->]. reflexivity.
  - destruct (findIndex _ ps) as [idx|]; [|discriminate].
    intros H. rewrite (IH _ H). apply map_campo_alter. intros p. apply Hg.
Qed.

(** X15. Whatever record-sale answers, the products document has after it
    the same products in the same places, each with the id, the name, the
    price and the [activo] flag that it had: a sale changes stocks
    only. *)
Theorem record_sale_changes_stock_only
    (uuid ahora : string) (body : body_post_venta) (s : fs)
    (productos : list producto) :
  productos_json s = Some productos ->
  map json_producto productos = productos ->
  exists productos',
    productos_json (snd (record_sale uuid ahora body s)) = Some productos'
    /\ map id_producto productos' = map id_producto productos
    /\ map nombre productos' = map nombre productos
    /\ map precio productos' = map precio productos
    /\ map activo productos' = map activo productos.
Proof.
  intros Hp Hjson.
  assert (forall (ls : list detalle) (ps' : list producto),
             fst (descontar_stock productos ls s) = Next ps' ->
             forall g : producto -> value,
               (forall v p, g (set_stock v p) = g p) ->
               (forall p, g (json_producto p) = json_value (g p)) ->
               map g (map json_producto ps') = map g productos) as Hcampo.
  { intros ls ps' Hd g Hg Hj.
    rewrite map_map. rewrite (map_ext _ _ Hj), <- map_map.
    rewrite (descontar_stock_campo g s _ _ _ Hg Hd).
    rewrite <- Hjson at 2. rewrite !map_map. apply map_ext.
    intros p. symmetry. apply Hj. }
  rewrite record_sale_pasos.
  destruct (venta_items body) as [[|it l]|] eqn:Hl;
    try solve [exists productos; auto].
  destruct (fst (validar_items (it :: l) s)) as [[]|r0|];
    try solve [exists productos; auto].
  rewrite Hp.
  destruct (fst (verificar_stock productos (it :: l) [] s)) as [ls|r0|];
    try solve [exists productos; auto].
  destruct (fst (descontar_stock productos ls s)) as [ps|r0|] eqn:Hd;
    try solve [exists productos; auto].
  exists (map json_producto ps).
  split; [destruct (ventas_json s); reflexivity|].
  repeat split; apply (Hcampo ls ps Hd); reflexivity.
Qed.

Lemma record_sale_changes_stock_only_witness :
  let body := carrito [Item (num 1) (num 2)] in
  productos_json (snd (record_sale "u" "t" body tienda))
  = Some [set_stock (num 0) widget; gadget]
  /\ exists productos',
       productos_json (snd (record_sale "u" "t" body tienda)) = Some productos'
       /\ map id_producto productos' = map id_producto [widget; gadget]
       /\ map nombre productos' = map nombre [widget; gadget]
       /\ map precio productos' = map precio [widget; gadget]
       /\ map activo productos' = map activo [widget; gadget].
Proof.
  intros body. split; [reflexivity|].
  apply (record_sale_changes_stock_only "u" "t" body tienda [widget; gadget]);
    reflexivity.
Defined.



(** ** Ids: numbers, all different, never lost *)

Lemma strict_eq_sym (a b : value) : strict_eq a b = strict_eq b a.
Proof.
  destruct a as [| |x|[|s|p]|x], b as [| |y|[|t|q]|y]; simpl; try reflexivity.
  - destruct x, y; reflexivity.
  - destruct s, t; reflexivity.
  - apply Qeq_bool_comm.
  - apply String.eqb_sym.
Qed.

Lemma strict_eq_trans (a b c : value) :
  strict_eq a b = true -> strict_eq b c = true -> strict_eq a c = true.
Proof.
  destruct a as [| |x|[|s|p]|x], b as [| |y|[|t|q]|y], c as [| |z|[|u|r]|z];
    simpl; try discriminate; auto.
  - destruct x, y, z; auto.
  - destruct s, t, u; auto.
  - rewrite !Qeq_bool_iff. intros H1 H2. rewrite H1. exact H2.
  - rewrite !String.eqb_eq. congruence.
Qed.




(** ** record-sale: a cart of different products keeps the stock at zero
    or more *)

Lemma forallb_lookup {A} (f : A -> bool) (l : list A) (i : nat) (x : A) :
  forallb f l = true -> l !! i = Some x -> f x = true.
Proof.
  intros Hf Hi. rewrite forallb_forall in Hf. apply Hf.
  apply list_elem_of_In. apply (list_elem_of_lookup_2 l i x Hi).
Qed.

Lemma distintos_lookup (ids : list value) (i j : nat) (a b : value) :
  distintos ids = true ->
  ids !! i = Some a -> ids !! j = Some b ->
  strict_eq a b = true -> i = j.
Proof.
  revert i j. induction ids as [|x ids IH]; intros i j Hd Hi Hj Hab;
    [discriminate|].
  simpl in Hd. apply andb_prop in Hd. destruct Hd as [Hx Hd].
  destruct i as [|i], j as [|j]; simpl in Hi, Hj.
  - reflexivity.
  - injection Hi as ->.
    pose proof (forallb_lookup _ _ _ _ Hx Hj) as H. simpl in H.
    rewrite Hab in H. discriminate.
  - injection Hj as ->.
    pose proof (forallb_lookup _ _ _ _ Hx Hi) as H. simpl in H.
    rewrite strict_eq_sym, Hab in H. discriminate.
  - f_equal. apply (IH i j Hd Hi Hj Hab).
Qed.

Lemma descontar_stock_no_negativo (s : fs) (ls : list detalle)
    (ps ps' : list producto) :
  Forall stock_no_negativo ps ->
  distintos (map id_producto ps) = true ->
  distintos (map linea_id_producto ls) = true ->
  Forall (linea_cubierta ps) ls ->
  fst (descontar_stock ps ls s) = Next ps' ->
  Forall stock_no_negativo ps'.
Proof.
  revert ps. induction ls as [|d ls IH]; intros ps Hst Hids Hls Hcub; simpl.
  - intros [= <-]. exact Hst.
  - destruct (findIndex _ ps) as [k|] eqn:Hk; [|discriminate].
    destruct (findIndex_Some _ _ _ Hk) as (pk & Hpk & Hidk & _).
    apply Forall_cons in Hcub. destruct Hcub as [(j & p & c & st & Hj & Hd & Hsp & Hc & Hle) Hcub].
    simpl in Hls. apply andb_prop in Hls. destruct Hls as [Hd_ls Hls].
    assert (k = j) as ->.
    { apply (distintos_lookup (map id_producto ps) k j
               (id_producto pk) (id_producto p) Hids).
      - rewrite list_lookup_fmap, Hpk. reflexivity.
      - rewrite list_lookup_fmap, Hj. reflexivity.
      - rewrite <- Hd. exact Hidk. }
    rewrite Hj in Hpk. injection Hpk as <-.
    apply IH.
    + apply Forall_alter; [exact Hst|].
      intros x Hx _. rewrite Hj in Hx. injection Hx as <-.
      exists (Qred (st - c)). unfold js_sub. rewrite Hsp, Hc. simpl.
      split; [reflexivity|]. rewrite Qred_correct. lra.
    + rewrite map_id_alter by reflexivity. exact Hids.
    + exact Hls.
    + rewrite Forall_forall in Hcub. apply Forall_forall. intros d' Hd'.
      destruct (Hcub d' Hd') as (j' & p' & c' & st' & Hj' & Hd'id & Hsp' & Hc' & Hle').
      exists j', p', c', st'. repeat split; auto.
      rewrite list_lookup_alter_ne; [exact Hj'|].
      intros ->. rewrite Hj in Hj'. injection Hj' as <-.
      assert (strict_eq (linea_id_producto d) (linea_id_producto d') = true) as E.
      { rewrite Hd'id, Hd. rewrite Hd in Hidk. exact Hidk. }
      rewrite forallb_forall in Hd_ls.
      assert (In (linea_id_producto d') (map linea_id_producto ls)) as Hin.
      { apply in_map. apply list_elem_of_In. exact Hd'. }
      specialize (Hd_ls _ Hin). simpl in Hd_ls. rewrite E in Hd_ls. discriminate.
Qed.

Lemma linea_de_id (productos : list producto) (it : item) (d : detalle) :
  linea_de productos it = Some d ->
  strict_eq (linea_id_producto d) (id_de_item it) = true.
Proof.
  destruct it as [|id cant]; simpl; [discriminate|].
  destruct (buscar productos id) as [p|] eqn:Hb; [|discriminate].
  intros [= <-]. simpl. apply List.find_some in Hb. destruct Hb as [_ Hb].
  apply andb_prop in Hb. tauto.
Qed.

Lemma lineas_distintas_aux (l : list item) (ls : list detalle) (x dx : value) :
  Forall2 (fun it d => strict_eq (linea_id_producto d) (id_de_item it) = true) l ls ->
  forallb (fun y => negb (strict_eq x y)) (map id_de_item l) = true ->
  strict_eq dx x = true ->
  forallb (fun y => negb (strict_eq dx y)) (map linea_id_producto ls) = true.
Proof.
  intros H Hx Hdx. induction H as [|it d l ls Hd _ IH]; [reflexivity|].
  simpl in *. apply andb_prop in Hx. destruct Hx as [Hit Hx].
  rewrite (IH Hx), andb_true_r. apply negb_true_iff.
  destruct (strict_eq dx (linea_id_producto d)) eqn:E; [|reflexivity].
  apply negb_true_iff in Hit. rewrite <- Hit. symmetry.
  rewrite strict_eq_sym in Hdx.
  apply (strict_eq_trans x dx _ Hdx).
  apply (strict_eq_trans dx (linea_id_producto d) _ E Hd).
Qed.

Lemma lineas_distintas (productos : list producto) (l : list item)
    (ls : list detalle) :
  mapM (linea_de productos) l = Some ls ->
  distintos (map id_de_item l) = true ->
  distintos (map linea_id_producto ls) = true.
Proof.
  intros Hm. apply mapM_Some_1 in Hm.
  assert (Forall2 (fun it d => strict_eq (linea_id_producto d) (id_de_item it)
                               = true) l ls) as H.
  { eapply Forall2_impl; [exact Hm|]. intros it d. apply linea_de_id. }
  clear Hm. induction H as [|it d l ls Hd Hl IH]; [reflexivity|].
  simpl. intros Hdis. apply andb_prop in Hdis. destruct Hdis as [Hit Hdis].
  rewrite (IH Hdis), andb_true_r.
  apply (lineas_distintas_aux l ls (id_de_item it) _ Hl Hit Hd).
Qed.

Lemma lineas_cubiertas (productos : list producto) (l : list item)
    (ls : list detalle) :
  Forall stock_no_negativo productos ->
  mapM (linea_de productos) l = Some ls ->
  existsb (fun it => negb (es_objeto it) || falla_busqueda productos it
                     || falla_stock productos it) l = false ->
  forallb cantidad_numerica l = true ->
  Forall (linea_cubierta productos) ls.
Proof.
  intros Hst Hm. apply mapM_Some_1 in Hm.
  induction Hm as [|it d l ls Hd _ IH]; intros Hs Hnum; [constructor|].
  simpl in Hs, Hnum. apply orb_false_elim in Hs. destruct Hs as [Hit Hs].
  apply andb_prop in Hnum. destruct Hnum as [Hc Hnum].
  constructor; [|apply IH; assumption].
  destruct it as [|id [| | |[| |c]|]]; try discriminate.
  simpl in Hd, Hit. destruct (buscar productos id) as [p|] eqn:Hb; [|discriminate].
  injection Hd as <-.
  apply List.find_some in Hb. destruct Hb as [Hin _].
  apply list_elem_of_In in Hin.
  destruct (list_elem_of_lookup_1 _ _ Hin) as [j Hj].
  rewrite Forall_forall in Hst. destruct (Hst p Hin) as (st & Hsp & _).
  exists j, p, c, st. simpl. repeat split; auto.
  simpl in Hit. rewrite Hsp in Hit. simpl in Hit.
  apply negb_false_iff in Hit. apply Qle_bool_iff. exact Hit.
Qed.

(** X18. record-sale keeps the invariant [stock >= 0] when no two
    products of the document have the same id, the quantities of the cart
    are numbers, and no two entries of the cart have the same id: every
    product named by the cart loses once a quantity that was checked
    against its stock. *)
Theorem record_sale_distinct_cart_stock
    (uuid ahora : string) (body : body_post_venta) (s : fs)
    (productos : list producto) (l : list item) :
  productos_json s = Some productos ->
  stocks_no_negativos s ->
  distintos (map id_producto productos) = true ->
  venta_items body = Some l ->
  forallb cantidad_numerica l = true ->
  distintos (map id_de_item l) = true ->
  stocks_no_negativos (snd (record_sale uuid ahora body s)).
Proof.
  intros Hp Hst Hids Hl Hnum Hdis. rewrite record_sale_pasos, Hl.
  destruct l as [|it l]; [exact Hst|].
  destruct (fst (validar_items (it :: l) s)) as [[]|r0|]; try exact Hst.
  rewrite Hp.
  destruct (fst (verificar_stock productos (it :: l) [] s)) as [ls|r0|] eqn:Hv;
    try exact Hst.
  destruct (fst (descontar_stock productos ls s)) as [ps|r0|] eqn:Hd;
    try exact Hst.
  apply verificar_stock_next in Hv. destruct Hv as [Hs Hm].
  destruct (mapM (linea_de productos) (it :: l)) as [ls0|] eqn:Hm0;
    [|discriminate].
  simpl in Hm. injection Hm as ->.
  assert (Forall stock_no_negativo ps) as Hps.
  { apply (descontar_stock_no_negativo s ls0 productos ps (Hst productos Hp)
             Hids (lineas_distintas productos _ _ Hm0 Hdis)
             (lineas_cubiertas productos _ _ (Hst productos Hp) Hm0 Hs Hnum) Hd). }
  assert (Forall stock_no_negativo (map json_producto ps)) as Hjps.
  { apply Forall_map. eapply Forall_impl; [exact Hps|].
    apply json_stock_no_negativo. }
  destruct (ventas_json s); intros ps' [= <-]; exact Hjps.
Qed.

Lemma record_sale_distinct_cart_stock_witness :
  let s0 := {| productos_json := Some [widget; set_activo (VBool true) gadget];
               ventas_json := Some []; escrituras := [] |} in
  let body := carrito [Item (num 2) (VNum (Fin 3.5)); Item (num 1) (num 2)] in
  productos_json (snd (record_sale "u" "t" body s0))
  = Some [set_stock (num 0) widget;
          set_stock (VNum (Fin (7 # 2))) (set_activo (VBool true) gadget)]
  /\ stocks_no_negativos (snd (record_sale "u" "t" body s0)).
Proof.
  intros s0 body. split; [reflexivity|].
  apply (record_sale_distinct_cart_stock "u" "t" body s0
           [widget; set_activo (VBool true) gadget]
           [Item (num 2) (VNum (Fin 3.5)); Item (num 1) (num 2)]);
    try reflexivity.
  intros ps [= <-].
  repeat constructor; eexists; (split; [reflexivity | discriminate]).
Defined.

(** ** update-product: a stock that is zero or more *)

Lemma leading_digit_no_negativo (fuel : nat) (q : Q) :
  (0 <= q)%Q -> 0 <= leading_digit fuel q.
Proof.
  revert q. induction fuel as [|fuel IH]; intros q Hq; simpl.
  - change 0 with (Qfloor 0). apply Qfloor_resp_le. exact Hq.
  - destruct (Qle_bool 10 q).
    + apply IH. apply Qle_shift_div_l; [reflexivity | lra].
    + destruct (Qle_bool 1 q).
      * change 0 with (Qfloor 0). apply Qfloor_resp_le. exact Hq.
      * apply IH. lra.
Qed.

(** [parseInt] of a number that is zero or more is an integer that is
    zero or more. *)
Lemma parseInt_no_negativo (q : Q) :
  (0 <= q)%Q -> exists z, parseInt (VNum (Fin q)) = Fin (inject_Z z) /\ 0 <= z.
Proof.
  intros Hq. unfold parseInt, parseInt_number, Qneg_bool. cbv zeta.
  rewrite (proj2 (Qle_bool_iff 0 q) Hq). cbn [negb].
  eexists. split; [reflexivity|].
  assert (0 <= Qabs q)%Q as Ha by apply Qabs_nonneg.
  destruct (Qzero_bool q); [lia|].
  destruct (Qle_bool (1 # 1000000) (Qabs q)
            && negb (Qle_bool (inject_Z (10 ^ 21)) (Qabs q))).
  - change 0 with (Qfloor 0). apply Qfloor_resp_le. exact Ha.
  - apply leading_digit_no_negativo. exact Ha.
Qed.

Lemma stock_campos_recibidos (body : body_put_producto) (p : producto) :
  stock (campos_recibidos body p)
  = if is_undefined (put_stock body) then stock p
    else VNum (parseInt (put_stock body)).
Proof.
  unfold campos_recibidos.
  destruct (put_nombre body), (is_undefined (put_precio body)),
    (is_undefined (put_stock body)), (is_undefined (put_activo body));
    reflexivity.
Qed.

(** X19. update-product keeps the invariant [stock >= 0] when the request
    carries no stock, or a stock that is a number that is zero or more:
    the stock stored is then the integer that [parseInt] reads of it,
    which is zero or more. *)
Theorem update_product_keeps_stock (body : body_put_producto) (s : fs) :
  stocks_no_negativos s ->
  put_stock body = VUndef \/ numero_no_negativo (put_stock body) ->
  stocks_no_negativos (snd (update_product body s)).
Proof.
  intros Hs Hstock. rewrite update_product_pasos.
  destruct (negb (truthy (put_id_producto body))); [exact Hs|].
  destruct (productos_json s) as [productos|] eqn:Hp; [|exact Hs].
  destruct (findIndex _ productos) as [idx|]; [|exact Hs].
  destruct (nombre_admitido (put_nombre body)); [|exact Hs].
  intros ps [= <-]. apply Forall_map.
  eapply Forall_impl; [|apply json_stock_no_negativo].
  apply Forall_alter; [exact (Hs productos Hp)|].
  intros p _ Hq. unfold stock_no_negativo.
  rewrite stock_campos_recibidos.
  destruct Hstock as [-> | (q & -> & Hq0)]; [exact Hq|].
  cbn [is_undefined].
  destruct (parseInt_no_negativo q Hq0) as (z & -> & Hz).
  exists (inject_Z z). split; [reflexivity|].
  change 0%Q with (inject_Z 0). rewrite <- Zle_Qle. exact Hz.
Qed.

Lemma update_product_keeps_stock_witness :
  let body := {| put_id_producto := num 1; put_nombre := VUndef;
                 put_precio := VUndef; put_stock := VNum (Fin 6.75);
                 put_activo := VUndef |} in
  productos_json (snd (update_product body tienda))
  = Some [set_stock (num 6) widget; gadget]
  /\ stocks_no_negativos (snd (update_product body tienda)).
Proof.
  intros body. split; [reflexivity|].
  apply (update_product_keeps_stock body tienda).
  - intros ps [= <-].
    repeat constructor; eexists; (split; [reflexivity | discriminate]).
  - right. exists 6.75%Q. split; [reflexivity | discriminate].
Defined.

(** ** The documents stay JSON *)

(** Every route leaves the products document made of JSON values, [NaN]
    and the infinities written as [null], when it found it so: this is
    what the properties above ask of the document that a request
    finds. *)
Lemma products_document_stays_json (s : fs) (productos : list producto) :
  productos_json s = Some productos ->
  map json_producto productos = productos ->
  let es_json (s' : fs) :=
    exists productos', productos_json s' = Some productos'
                       /\ map json_producto productos' = productos' in
  (forall body, es_json (snd (create_product body s)))
  /\ (forall body, es_json (snd (update_product body s)))
  /\ (forall id, es_json (snd (deactivate_product id s)))
  /\ (forall uuid ahora body, es_json (snd (record_sale uuid ahora body s))).
Proof.
  intros Hp Hjson. cbv zeta.
  assert (exists productos', productos_json s = Some productos'
                             /\ map json_producto productos' = productos') as Hs.
  { exists productos. auto. }
  assert (forall ps, exists productos',
               Some (map json_producto ps) = Some productos'
               /\ map json_producto productos' = productos') as Hw.
  { intros ps. exists (map json_producto ps).
    split; [reflexivity | apply map_json_idempotente]. }
  split; [|split; [|split]].
  - intros body. rewrite create_product_pasos.
    destruct (producto_invalido body); [exact Hs|].
    rewrite Hp. destruct (post_nombre body); try exact Hs. apply Hw.
  - intros body. rewrite update_product_pasos.
    destruct (negb (truthy (put_id_producto body))); [exact Hs|].
    rewrite Hp. destruct (findIndex _ productos); [|exact Hs].
    destruct (nombre_admitido (put_nombre body)); [apply Hw | exact Hs].
  - intros id. rewrite deactivate_product_pasos.
    destruct (negb (truthy id)); [exact Hs|].
    rewrite Hp. destruct (findIndex _ productos); [apply Hw | exact Hs].
  - intros uuid ahora body. rewrite record_sale_pasos.
    destruct (venta_items body) as [[|it l]|]; try exact Hs.
    destruct (fst (validar_items (it :: l) s)) as [[]|r0|]; try exact Hs.
    rewrite Hp.
    destruct (fst (verificar_stock productos (it :: l) [] s)) as [ls|r0|];
      try exact Hs.
    destruct (fst (descontar_stock productos ls s)) as [ps|r0|];
      try exact Hs.
    destruct (ventas_json s); apply Hw.
Qed.

(** ** update-product: a stock that is not a number *)

(** X20. update-product does not refuse a stock that [parseInt] cannot
    read ([null], a boolean, a string that does not start with digits):
    it answers 200 and the products document then holds [null] as the
    stock of the product, the other products being as they were. *)
Theorem update_product_unreadable_stock
    (body : body_put_producto) (s : fs) (productos : list producto)
    (idx : nat) :
  productos_json s = Some productos ->
  map json_producto productos = productos ->
  truthy (put_id_producto body) = true ->
  findIndex (fun p => strict_eq (id_producto p) (put_id_producto body)) productos
  = Some idx ->
  nombre_admitido (put_nombre body) = true ->
  is_undefined (put_stock body) = false ->
  parseInt (put_stock body) = NaN ->
  exists productos' p',
    status (fst (update_product body s)) = 200
    /\ productos_json (snd (update_product body s)) = Some productos'
    /\ productos' !! idx = Some p'
    /\ stock p' = VNull
    /\ (forall j, j <> idx -> productos' !! j = productos !! j).
Proof.
  intros Hp Hjson Hid Hidx Hn Hs Hnan.
  destruct (findIndex_Some _ _ _ Hidx) as (p & Hlk & _).
  rewrite update_product_pasos, Hid, Hp, Hidx, Hn. cbn [negb]. cbv zeta.
  exists (map json_producto (alter (campos_recibidos body) idx productos)),
    (json_producto (campos_recibidos body p)).
  cbn [fst snd status productos_json tras_escribir_productos].
  split; [reflexivity|]. split; [reflexivity|]. split; [|split].
  - rewrite lookup_json_alter by exact Hjson.
    rewrite Nat.eqb_refl, Hlk. reflexivity.
  - cbn [stock json_producto]. rewrite stock_campos_recibidos, Hs, Hnan.
    reflexivity.
  - intros j Hj. rewrite lookup_json_alter by exact Hjson.
    destruct (Nat.eqb_spec idx j); [congruence | reflexivity].
Qed.

Lemma update_product_unreadable_stock_witness :
  let body := {| put_id_producto := num 1; put_nombre := VUndef;
                 put_precio := VUndef; put_stock := VStr "abc";
                 put_activo := VUndef |} in
  productos_json (snd (update_product body tienda))
  = Some [set_stock VNull widget; gadget]
  /\ exists productos' p',
       status (fst (update_product body tienda)) = 200
       /\ productos_json (snd (update_product body tienda)) = Some productos'
       /\ productos' !! 0%nat = Some p'
       /\ stock p' = VNull
       /\ (forall j, j <> 0%nat -> productos' !! j = [widget; gadget] !! j).
Proof.
  intros body. split; [reflexivity|].
  apply (update_product_unreadable_stock body tienda [widget; gadget] 0%nat);
    reflexivity.
Defined.
